(** * The console entry point of the service: [daemon/src/win/win_console.cpp]

    A shallow embedding of [WinConsole] (command dispatch, driver
    lifecycle operations, console control handler, daemon start/stop) and
    the properties of its behaviour.

    The file talks to many collaborators that live elsewhere (the driver
    installation primitives of [tap_inl.h], [WinService], [WintunModule],
    [Exec::cmd], the [Daemon] object, Qt and the Windows SDK).  They are
    modelled as calls answered by an arbitrary oracle: every theorem holds
    for every possible behaviour of the collaborators. *)

From Stdlib Require Import ZArith List String Ascii Bool Lia.
Import ListNotations.

Local Open Scope string_scope.
Local Open Scope Z_scope.

(** ** Qt strings

    Tokens are modelled as strings of 8-bit characters (the Latin-1 range
    of [QString]); the command names they are compared with are
    [QLatin1String] literals. *)
Module Qt.

(** Simple case folding of one character, as Qt's [foldCase] does it on the
    Latin-1 range: the upper-case letters A..Z and the accented capitals
    0xC0..0xDE (0xD7, the multiplication sign, apart) fold to the letter
    32 places further; the micro sign 0xB5 folds to the Greek mu U+03BC. *)
Definition foldCase (c : ascii) : N :=
  let n := N_of_ascii c in
  if ((65 <=? n) && (n <=? 90))%N then (n + 32)%N
  else if ((192 <=? n) && (n <=? 222) && negb (n =? 215))%N then (n + 32)%N
  else if (n =? 181)%N then 956%N
  else n.

(** [ucstricmp] of qstring.cpp: compares the two strings character by
    character after case folding; the first difference is the result, and
    when one string is a prefix of the other the shorter one is smaller. *)
Fixpoint ucstricmp (a b : string) : Z :=
  match a, b with
  | String x a', String y b' =>
      let diff := Z.of_N (foldCase x) - Z.of_N (foldCase y) in
      if diff =? 0 then ucstricmp a' b' else diff
  | EmptyString, EmptyString => 0
  | EmptyString, String _ _ => -1
  | String _ _, EmptyString => 1
  end.

Inductive CaseSensitivity := CaseInsensitive | CaseSensitive.

(** [ucstrcmp]: the same comparison without folding. *)
Fixpoint ucstrcmp (a b : string) : Z :=
  match a, b with
  | String x a', String y b' =>
      let diff := Z.of_N (N_of_ascii x) - Z.of_N (N_of_ascii y) in
      if diff =? 0 then ucstrcmp a' b' else diff
  | EmptyString, EmptyString => 0
  | EmptyString, String _ _ => -1
  | String _ _, EmptyString => 1
  end.

(** [QString::compare(QLatin1String, Qt::CaseSensitivity)]. *)
Definition compare (a text : string) (cs : CaseSensitivity) : Z :=
  match cs with
  | CaseInsensitive => ucstricmp a text
  | CaseSensitive => ucstrcmp a text
  end.

(** [QStringList::count], [QStringList::mid(pos)]. *)
Definition count (l : list string) : Z := Z.of_nat (List.length l).
Definition mid (l : list string) (pos : nat) : list string := skipn pos l.

(** [QStringList::at(i)]: the source asserts that the index is in range;
    [None] stands for an index out of range. *)
Definition at_ (l : list string) (i : nat) : option string := nth_error l i.

(** Letter case on the Latin-1 range, to say what a case variant of a
    token is: the lower-case letter of a capital (A..Z and the accented
    capitals) is 32 places further. *)
Definition toLower (c : ascii) : ascii :=
  let n := N_of_ascii c in
  if (((65 <=? n) && (n <=? 90))
      || ((192 <=? n) && (n <=? 222) && negb (n =? 215)))%N
  then ascii_of_N (n + 32) else c.

(** Two tokens are case variants of each other when they have the same
    length and differ at most in the case of their letters. *)
Fixpoint case_variant (s t : string) : bool :=
  match s, t with
  | EmptyString, EmptyString => true
  | String x s', String y t' =>
      Ascii.eqb (toLower x) (toLower y) && case_variant s' t'
  | _, _ => false
  end.

End Qt.

(** ** Constants of the Windows SDK

    [winerror.h], [setupapi.h] and [wincon.h] are system headers; the
    values are the ones they declare. *)
Module Win.

Definition TRUE : Z := 1.
Definition FALSE : Z := 0.

Definition ERROR_SERVICE_ALREADY_RUNNING : Z := 1056.
Definition ERROR_SERVICE_DOES_NOT_EXIST : Z := 1060.
Definition ERROR_SERVICE_NOT_ACTIVE : Z := 1062.
Definition ERROR_SERVICE_MARKED_FOR_DELETE : Z := 1072.
Definition ERROR_SERVICE_EXISTS : Z := 1073.
(** [APPLICATION_ERROR_MASK | ERROR_SEVERITY_ERROR | 0x242] and [| 0x243]. *)
Definition ERROR_AUTHENTICODE_TRUST_NOT_ESTABLISHED : Z :=
  Z.lor (Z.lor 0x20000000 0xC0000000) 0x242.
Definition ERROR_AUTHENTICODE_PUBLISHER_NOT_TRUSTED : Z :=
  Z.lor (Z.lor 0x20000000 0xC0000000) 0x243.

Definition CTRL_C_EVENT : Z := 0.
Definition CTRL_BREAK_EVENT : Z := 1.
Definition CTRL_CLOSE_EVENT : Z := 2.
Definition CTRL_LOGOFF_EVENT : Z := 5.
Definition CTRL_SHUTDOWN_EVENT : Z := 6.

End Win.

(** ** Data of the program *)

(** The error type of the common library: the one field the console reads
    is its system error code. *)
Record Error := mkError { systemCode : Z; what : string }.

(** Modelled from the spec: the [DriverStatus] enumeration, declared in
    [tap_inl.h] outside win_console.cpp.  The members are the six the
    specification lists, under the names win_console.cpp uses; their
    numeric values are a parameter ([DriverStatus_int] below). *)
Inductive DriverStatus :=
| DriverInstalled
| DriverInstalledReboot
| DriverInstallFailed
| DriverUninstalled
| DriverUninstalledReboot
| DriverUninstallFailed.

(** Modelled from the spec: the life cycle of the [Daemon] object, a class
    defined outside win_console.cpp: Idle, Running, Stopping, Stopped. *)
Inductive DaemonState := Idle | Running | Stopping | Stopped.

(** Modelled from the spec: [Daemon::stop], the single stop entry point: a
    request that makes a daemon that has not stopped yet stop, and that is
    a no-op once the daemon is stopping or has stopped. *)
Definition Daemon_stop (d : DaemonState) : DaemonState :=
  match d with
  | Idle => Stopping
  | Running => Stopping
  | Stopping => Stopping
  | Stopped => Stopped
  end.

(** Modelled from the spec: [Daemon::start] returns only once the daemon
    has fully stopped. *)
Definition Daemon_start (d : DaemonState) : DaemonState := Stopped.

(** What the process is configured and built with: the paths of
    [Path::...], the brand and version macros, the operating system's
    version test, the numeric values of the [DriverStatus] enumerators, the
    default argument of [installTapDriver] declared in win_console.h, the
    adapter name [WintunData::pOpenVPNName] of win_wintun.h, and the path
    functions of Qt and of the common library. *)
Record Env := mkEnv {
  TapDriverDir : string;
  WfpCalloutDriverDir : string;
  InstallationDir : string;
  ConfigLogFile : string;
  DaemonLogFile : string;
  BRAND_CODE : string;
  PIA_PRODUCT_NAME : string;
  semanticVersion : string;
  IsWindows10OrGreater : bool;
  DriverStatus_int : DriverStatus -> Z;
  installTapDriver_force_default : bool;
  pOpenVPNName : string;
  Path_div : string -> string -> string;
  toNativeSeparators : string -> string;
  baseName : string -> string
}.

(** ** Calls to the collaborators *)

Inductive Call :=
(** [::installTapDriver(inf, alwaysCreateNew, forceUpdate, nonInteractive)] *)
| Tap_installTapDriver (inf : string) (b1 force b3 : bool)
(** [::uninstallTapDriver(bool, bool)] *)
| Tap_uninstallTapDriver (b1 b2 : bool)
(** [::installCalloutDriver(inf, nonInteractive)] *)
| Tap_installCalloutDriver (inf : string) (b : bool)
(** [::uninstallCalloutDriver(inf, nonInteractive)] *)
| Tap_uninstallCalloutDriver (inf : string) (b : bool)
| WinService_installService
| WinService_uninstallService
| WinService_startService
| WinService_stopService
(** [WintunModule wintun;] and the end of its scope *)
| WintunModule_open
| WintunModule_close
| Wintun_deleteDriver
| Wintun_recreateAdapter (name : string)
(** [Exec::cmd(program, args)] *)
| Exec_cmd (program : string) (args : list string)
(** [SetConsoleCtrlHandler(ctrlHandler, add)] *)
| SetConsoleCtrlHandler (add : Z)
(** [_daemon->start()] *)
| WinDaemon_start.

(** A collaborator that can raise the domain error answers with a value or
    with the error it raises. *)
Inductive Reply (T : Type) :=
| Returns (v : T)
| Raises (e : Error).
Arguments Returns {T} v.
Arguments Raises {T} e.

(** The type of the answer of each call.  The driver and service
    primitives return an [int]; [deleteDriver] a [bool]; [recreateAdapter]
    a pointer, null on failure ([None]).

    Modelled from the spec: [Exec::cmd] (common/src/exec.h, outside
    win_console.cpp) reports a failure through its result and its own
    trace, and never raises. *)
Definition reply (c : Call) : Type :=
  match c with
  | Tap_installTapDriver _ _ _ _ => Reply Z
  | Tap_uninstallTapDriver _ _ => Reply Z
  | Tap_installCalloutDriver _ _ => Reply Z
  | Tap_uninstallCalloutDriver _ _ => Reply Z
  | WinService_installService => Reply Z
  | WinService_uninstallService => Reply Z
  | WinService_startService => Reply Z
  | WinService_stopService => Reply Z
  | WintunModule_open => unit
  | WintunModule_close => unit
  | Wintun_deleteDriver => Reply bool
  | Wintun_recreateAdapter _ => Reply (option N)
  | Exec_cmd _ _ => Z
  | SetConsoleCtrlHandler _ => Z
  | WinDaemon_start => Reply unit
  end.

Inductive LogLevel := Info | Warning | Critical.

Inductive LogItem :=
| LStr (s : string)
| LInt (z : Z)
| LList (l : list string)
| LError (e : Error).

(** What the program does that can be observed from outside, in order. *)
Inductive Event :=
| EvCall (c : Call)
| EvLog (lvl : LogLevel) (msg : list LogItem)
| EvStdout (lines : list string)
| EvStderr (lines : list string)
| EvLogger (logFilePath : string)
| EvNewDaemon
| EvConnect (signal slot : string)
(** [QMetaObject::invokeMethod(g_console, method)]: the call is handed to
    the thread of the console object and runs there later *)
| EvInvokeMethod (method : string)
| EvDaemonStop.

(** The state the program runs in: what it has done so far and the
    [_daemon] member of the console object ([None] until [runDaemon] has
    constructed the daemon). *)
Record World := mkWorld {
  trace : list Event;
  _daemon : option DaemonState
}.

Definition initial : World := {| trace := []; _daemon := None |}.

Definition record (e : Event) (w : World) : World :=
  {| trace := trace w ++ [e]; _daemon := _daemon w |}.

(** ** The monad of the program: state, the C++ exception, and the fault
    of dereferencing a pointer that points to no object. *)

Inductive Outcome (A : Type) :=
| Returned (a : A)
| Thrown (e : Error)
| Fault.
Arguments Returned {A} a.
Arguments Thrown {A} e.
Arguments Fault {A}.

Definition M (A : Type) : Type := World -> Outcome A * World.

Definition ret {A} (a : A) : M A := fun w => (Returned a, w).

Definition bind {A B} (m : M A) (k : A -> M B) : M B :=
  fun w =>
    match m w with
    | (Returned a, w') => k a w'
    | (Thrown e, w') => (Thrown e, w')
    | (Fault, w') => (Fault, w')
    end.

Definition throw {A} (e : Error) : M A := fun w => (Thrown e, w).

Definition fault {A} : M A := fun w => (Fault, w).

Definition emit (e : Event) : M unit := fun w => (Returned tt, record e w).

(** [try { body } catch (const Error& error) { handler }] *)
Definition try_catch {A} (body : M A) (handler : Error -> M A) : M A :=
  fun w =>
    match body w with
    | (Thrown e, w') => handler e w'
    | r => r
    end.

(** A scoped object: [close] runs when the scope is left, by a return or by
    an exception passing through. *)
Definition scoped {A} (open close : M unit) (body : M A) : M A :=
  bind open (fun _ w =>
    match body w with
    | (r, w') => (r, snd (close w'))
    end).

Declare Scope prog_scope.
Delimit Scope prog_scope with prog.
Notation "x <- m ;; k" := (bind m (fun x => k))
  (at level 61, m at next level, right associativity) : prog_scope.
Notation "m ;; k" := (bind m (fun _ => k))
  (at level 61, right associativity) : prog_scope.

(** ** The program *)
Module WinConsole.

Import Qt Win.
Local Open Scope prog_scope.

Section Program.

(** The configuration of the process and the behaviour of the
    collaborators: the answer to a call may depend on everything that
    happened before it. *)
Variable env : Env.
Variable backend : forall c : Call, list Event -> reply c.

(** A call to a collaborator that does not raise. *)
Definition call (c : Call) : M (reply c) :=
  fun w => (Returned (backend c (trace w)), record (EvCall c) w).

(** A call to a collaborator that returns a value or raises. *)
Definition callx {T} (c : Call) (cast : reply c -> Reply T) : M T :=
  r <- call c ;;
  match cast r with
  | Returns v => ret v
  | Raises e => throw e
  end.

Definition qInfo (msg : list LogItem) : M unit := emit (EvLog Info msg).
Definition qWarning (msg : list LogItem) : M unit := emit (EvLog Warning msg).
Definition qCritical (msg : list LogItem) : M unit := emit (EvLog Critical msg).

(** [static BOOL WINAPI ctrlHandler(DWORD dwCtrlType)] *)
Definition ctrlHandler (dwCtrlType : Z) : M Z :=
  if (dwCtrlType =? CTRL_C_EVENT) || (dwCtrlType =? CTRL_BREAK_EVENT) then
    emit (EvStderr ["Terminating..."]) ;;
    emit (EvInvokeMethod "stopDaemon") ;;
    ret TRUE
  else if (dwCtrlType =? CTRL_CLOSE_EVENT) || (dwCtrlType =? CTRL_LOGOFF_EVENT)
          || (dwCtrlType =? CTRL_SHUTDOWN_EVENT) then
    emit (EvStderr ["Terminating..."]) ;;
    emit (EvInvokeMethod "stopDaemon") ;;
    ret FALSE
  else
    ret FALSE.

Definition getInfPath : string :=
  toNativeSeparators env
    (Path_div env
       (Path_div env (TapDriverDir env)
          (if IsWindows10OrGreater env then "win10" else "win7"))
       "OemVista.inf").

Definition getWfpCalloutInfPath : string :=
  toNativeSeparators env
    (Path_div env
       (Path_div env (WfpCalloutDriverDir env)
          (if IsWindows10OrGreater env then "win10" else "win7"))
       "PiaWfpCallout.inf").

Definition installTapDriver (force : bool) : M Z :=
  callx (Tap_installTapDriver getInfPath false force false) (fun r => r).

Definition uninstallTapDriver : M Z :=
  callx (Tap_uninstallTapDriver true false) (fun r => r).

Definition reinstallTapDriver : M Z :=
  _ <- callx (Tap_uninstallTapDriver false false) (fun r => r) ;;
  callx (Tap_installTapDriver getInfPath false true false) (fun r => r).

(** [WintunModule wintun;]: the object lives until the function is left. *)
Definition WintunModule {A} (body : M A) : M A :=
  scoped (call WintunModule_open) (call WintunModule_close) body.

Definition uninstallWintunDriver : M Z :=
  WintunModule (
    let rebootRequiredWireGuard := false in
    let rebootRequiredOpenVPN := false in
    let rebootRequiredUninstall := false in
    deleted <- callx Wintun_deleteDriver (fun r => r) ;;
    if negb deleted then
      qWarning [LStr "WintunDeleteDriver failed to delete WinTUN driver"] ;;
      ret (DriverStatus_int env DriverUninstallFailed)
    else if rebootRequiredWireGuard || rebootRequiredOpenVPN
            || rebootRequiredUninstall then
      qInfo [LStr "WinTUN uninstall requested a reboot"] ;;
      ret (DriverStatus_int env DriverUninstalledReboot)
    else
      ret (DriverStatus_int env DriverUninstalled)).

Definition createWintunAdapter : M Z :=
  WintunModule (
    let rebootRequired := false in
    adapter <- callx (Wintun_recreateAdapter (pOpenVPNName env)) (fun r => r) ;;
    match adapter with
    | None => ret (DriverStatus_int env DriverInstallFailed)
    | Some _ =>
        if rebootRequired then ret (DriverStatus_int env DriverInstalledReboot)
        else ret (DriverStatus_int env DriverInstalled)
    end).

Definition installCalloutDriver : M Z :=
  callx (Tap_installCalloutDriver getWfpCalloutInfPath false) (fun r => r).

Definition uninstallCalloutDriver : M Z :=
  callx (Tap_uninstallCalloutDriver getWfpCalloutInfPath false) (fun r => r).

Definition reinstallCalloutDriver : M Z :=
  uninstallResult <-
    callx (Tap_uninstallCalloutDriver getWfpCalloutInfPath false) (fun r => r) ;;
  qInfo [LStr "Uninstall result:"; LInt uninstallResult] ;;
  if uninstallResult =? DriverStatus_int env DriverUninstalledReboot then
    qInfo [LStr "Restart the computer to complete uninstallation, then install again."] ;;
    ret uninstallResult
  else
    callx (Tap_installCalloutDriver getWfpCalloutInfPath false) (fun r => r).

(** [_daemon = new WinDaemon(this)] *)
Definition new_WinDaemon : M unit :=
  fun w => (Returned tt,
            {| trace := trace w ++ [EvNewDaemon]; _daemon := Some Idle |}).

(** [_daemon->start()]: dereferences [_daemon]; the call comes back when
    the daemon has stopped. *)
Definition daemon_start : M unit :=
  fun w =>
    match _daemon w with
    | None => fault w
    | Some d =>
        match callx WinDaemon_start (fun r => r) w with
        | (Returned tt, w') =>
            (Returned tt,
             {| trace := trace w'; _daemon := Some (Daemon_start d) |})
        | r => r
        end
    end.

Definition runDaemon : M Z :=
  new_WinDaemon ;;
  emit (EvConnect "Daemon::started" "QCoreApplication::exec") ;;
  emit (EvConnect "Daemon::stopped" "QCoreApplication::quit") ;;
  ctrlHandlerInstalled <- call (SetConsoleCtrlHandler TRUE) ;;
  daemon_start ;;
  (if negb (ctrlHandlerInstalled =? 0)
   then _ <- call (SetConsoleCtrlHandler FALSE) ;; ret tt
   else ret tt) ;;
  ret 0.

(** [_daemon->stop()]: dereferences [_daemon]. *)
Definition stopDaemon : M unit :=
  fun w =>
    match _daemon w with
    | None => fault w
    | Some d =>
        (Returned tt,
         {| trace := trace w ++ [EvDaemonStop];
            _daemon := Some (Daemon_stop d) |})
    end.

Definition helpText : list string :=
  [ PIA_PRODUCT_NAME env ++ " Service v" ++ semanticVersion env;
    "";
    "Usage:";
    "  " ++ BRAND_CODE env ++ "-service <command>";
    "";
    "Available commands:";
    "  install        Install service";
    "  uninstall      Uninstall service";
    "  start          Start service";
    "  stop           Stop service";
    "  run            Run interactively";
    "  tap install    Install TAP adapter";
    "  tap uninstall  Uninstall TAP adapter";
    "  tap reinstall  Reinstall TAP adapter";
    "  callout install Install WFP Callout driver";
    "  callout uninstall Uninstall WFP Callout driver";
    "  callout reinstall (Re)install WFP Callout driver" ]%string.

Definition showHelp : M Z :=
  emit (EvStdout helpText) ;;
  ret 0.

(** The members of [run]. *)

(** [MATCH_ARG(i, text)]; every use in [run] is guarded by a test of
    [args.count()], so that the index is in range. *)
Definition MATCH_ARG (args : list string) (i : nat) (text : string) : bool :=
  match at_ args i with
  | Some a => 0 =? compare a text CaseInsensitive
  | None => false
  end.

(** The lambda [unrecognizedCommand]. *)
Definition unrecognizedCommand (args : list string) : M Z :=
  qCritical [LStr "Unrecognized command:"; LList (mid args 1)] ;;
  emit (EvStdout
          [("Unrecognized command; type '"
            ++ match at_ args 0 with Some a => baseName env a | None => "" end
            ++ " help' for a list of available commands.")%string]) ;;
  ret 1.

(** The lambda [sendCheckDriverHint]: the result of [Exec::cmd] is not
    looked at. *)
Definition sendCheckDriverHint : M unit :=
  _ <- call (Exec_cmd (Path_div env (InstallationDir env)
                         (BRAND_CODE env ++ "ctl.exe")%string)
                      ["-u"; "checkdriver"]%string) ;;
  ret tt.

(** The callout group: the operation [result] is assigned from, or none
    when the function returns through [unrecognizedCommand]. *)
Definition calloutOperation (args : list string) : option (M Z) :=
  if MATCH_ARG args 2 "install" then Some installCalloutDriver
  else if MATCH_ARG args 2 "uninstall" then Some uninstallCalloutDriver
  else if MATCH_ARG args 2 "reinstall" then Some reinstallCalloutDriver
  else None.

(** The body of the [try] block. *)
Definition run_try (args : list string) : M Z :=
  if MATCH_ARG args 1 "help" || MATCH_ARG args 1 "/?" then
    showHelp
  else if MATCH_ARG args 1 "run" then
    runDaemon
  else if MATCH_ARG args 1 "install" then
    callx WinService_installService (fun r => r)
  else if MATCH_ARG args 1 "uninstall" then
    callx WinService_uninstallService (fun r => r)
  else if MATCH_ARG args 1 "start" then
    callx WinService_startService (fun r => r)
  else if MATCH_ARG args 1 "stop" then
    callx WinService_stopService (fun r => r)
  else if MATCH_ARG args 1 "tap" && (count args >? 2) then
    if MATCH_ARG args 2 "install" then
      installTapDriver (installTapDriver_force_default env)
    else if MATCH_ARG args 2 "uninstall" then
      uninstallTapDriver
    else if MATCH_ARG args 2 "reinstall" then
      reinstallTapDriver
    else
      unrecognizedCommand args
  else if MATCH_ARG args 1 "tun" && (count args >? 2) then
    if MATCH_ARG args 2 "uninstall" then
      uninstallWintunDriver
    else if MATCH_ARG args 2 "create" then
      createWintunAdapter
    else
      unrecognizedCommand args
  else if MATCH_ARG args 1 "callout" && (count args >? 2) then
    match calloutOperation args with
    | Some operation =>
        result <- operation ;;
        sendCheckDriverHint ;;
        ret result
    | None => unrecognizedCommand args
    end
  else
    unrecognizedCommand args.

(** The [catch (const Error& error)] block. *)
Definition run_catch (error : Error) : M Z :=
  qCritical [LError error] ;;
  let code := systemCode error in
  if (code =? ERROR_SERVICE_EXISTS)
     || (code =? ERROR_SERVICE_DOES_NOT_EXIST)
     || (code =? ERROR_SERVICE_ALREADY_RUNNING)
     || (code =? ERROR_SERVICE_NOT_ACTIVE) then
    ret 2
  else if (code =? ERROR_SERVICE_MARKED_FOR_DELETE)
          || (code =? ERROR_AUTHENTICODE_PUBLISHER_NOT_TRUSTED)
          || (code =? ERROR_AUTHENTICODE_TRUST_NOT_ESTABLISHED) then
    ret 3
  else
    ret 1.

(** [int WinConsole::run()], on the arguments [_arguments] of the
    process. *)
Definition run (_arguments : list string) : M Z :=
  let args := _arguments in
  if count args >? 1 then
    let logFilePath :=
      if MATCH_ARG args 1 "run" then DaemonLogFile env else ConfigLogFile env in
    emit (EvLogger logFilePath) ;;
    try_catch (run_try args) run_catch
  else
    showHelp.

End Program.

End WinConsole.

(** ** The command grammar of the specification

    The specification describes the dispatch through a [Command] selected
    from the argument vector.  [selectCommand] follows its words; the
    lemma [run_by_command] below relates it to the [run] of the source. *)
Module Grammar.

Import Qt.

Inductive Command :=
| Run
| InstallService
| UninstallService
| StartService
| StopService
| TapInstall
| TapUninstall
| TapReinstall
| TunUninstall
| TunCreate
| CalloutInstall
| CalloutUninstall
| CalloutReinstall
| Help
| Unrecognized.

(** A token selects a name of the grammar when they are equal up to
    letter case. *)
Definition selects (token name : string) : bool :=
  0 =? Qt.compare token name CaseInsensitive.

Definition subAction (group token : string) : Command :=
  if String.eqb group "tap" then
    if selects token "install" then TapInstall
    else if selects token "uninstall" then TapUninstall
    else if selects token "reinstall" then TapReinstall
    else Unrecognized
  else if String.eqb group "tun" then
    if selects token "uninstall" then TunUninstall
    else if selects token "create" then TunCreate
    else Unrecognized
  else
    if selects token "install" then CalloutInstall
    else if selects token "uninstall" then CalloutUninstall
    else if selects token "reinstall" then CalloutReinstall
    else Unrecognized.

(** Fewer than two tokens: [Help].  Otherwise token 1 selects the primary
    command; for [tap], [tun] and [callout] token 2 is mandatory and
    selects the sub-action. *)
Definition selectCommand (args : list string) : Command :=
  match args with
  | [] | [_] => Help
  | _ :: token1 :: rest =>
      if selects token1 "help" || selects token1 "/?" then Help
      else if selects token1 "run" then Run
      else if selects token1 "install" then InstallService
      else if selects token1 "uninstall" then UninstallService
      else if selects token1 "start" then StartService
      else if selects token1 "stop" then StopService
      else if selects token1 "tap" then
        match rest with token2 :: _ => subAction "tap" token2 | [] => Unrecognized end
      else if selects token1 "tun" then
        match rest with token2 :: _ => subAction "tun" token2 | [] => Unrecognized end
      else if selects token1 "callout" then
        match rest with token2 :: _ => subAction "callout" token2 | [] => Unrecognized end
      else Unrecognized
  end.

(** The primary commands and the sub-actions of each group. *)
Definition primaryCommands : list string :=
  ["help"; "/?"; "run"; "install"; "uninstall"; "start"; "stop";
   "tap"; "tun"; "callout"].

Definition groups : list string := ["tap"; "tun"; "callout"].

Definition subActions (group : string) : list string :=
  if String.eqb group "tap" then ["install"; "uninstall"; "reinstall"]
  else if String.eqb group "tun" then ["uninstall"; "create"]
  else if String.eqb group "callout" then ["install"; "uninstall"; "reinstall"]
  else [].

End Grammar.

(** ** An example configuration and example collaborators *)
Module Sample.

Definition status_int (s : DriverStatus) : Z :=
  match s with
  | DriverInstalled => 0
  | DriverInstalledReboot => 1
  | DriverInstallFailed => 2
  | DriverUninstalled => 3
  | DriverUninstalledReboot => 4
  | DriverUninstallFailed => 5
  end.

Definition env : Env := {|
  TapDriverDir := "C:/pia/tap";
  WfpCalloutDriverDir := "C:/pia/wfp_callout";
  InstallationDir := "C:/pia";
  ConfigLogFile := "C:/pia/data/config.log";
  DaemonLogFile := "C:/pia/data/daemon.log";
  BRAND_CODE := "pia";
  PIA_PRODUCT_NAME := "Private Internet Access";
  semanticVersion := "3.5.0";
  IsWindows10OrGreater := true;
  DriverStatus_int := status_int;
  installTapDriver_force_default := false;
  pOpenVPNName := "OpenVPN";
  Path_div := fun a b => (a ++ "/" ++ b)%string;
  toNativeSeparators := fun p => p;
  baseName := fun p => p
|}.

(** Collaborators for which every operation succeeds with status 0. *)
Definition succeeding (c : Call) (_ : list Event) : reply c :=
  match c with
  | Tap_installTapDriver _ _ _ _ => Returns 0
  | Tap_uninstallTapDriver _ _ => Returns 0
  | Tap_installCalloutDriver _ _ => Returns 0
  | Tap_uninstallCalloutDriver _ _ => Returns 3
  | WinService_installService => Returns 0
  | WinService_uninstallService => Returns 0
  | WinService_startService => Returns 0
  | WinService_stopService => Returns 0
  | WintunModule_open => tt
  | WintunModule_close => tt
  | Wintun_deleteDriver => Returns true
  | Wintun_recreateAdapter _ => Returns (Some 1%N)
  | Exec_cmd _ _ => 0
  | SetConsoleCtrlHandler _ => 1
  | WinDaemon_start => Returns tt
  end.

(** Collaborators for which the service operations raise the error with
    the given system code, the driver operations report failure, the
    callout uninstall asks for a reboot and the control client cannot be
    run. *)
Definition failing (code : Z) (c : Call) (_ : list Event) : reply c :=
  match c with
  | Tap_installTapDriver _ _ _ _ => Returns 2
  | Tap_uninstallTapDriver _ _ => Returns 5
  | Tap_installCalloutDriver _ _ => Returns 2
  | Tap_uninstallCalloutDriver _ _ => Returns 4
  | WinService_installService => Raises (mkError code "install")
  | WinService_uninstallService => Raises (mkError code "uninstall")
  | WinService_startService => Raises (mkError code "start")
  | WinService_stopService => Raises (mkError code "stop")
  | WintunModule_open => tt
  | WintunModule_close => tt
  | Wintun_deleteDriver => Returns false
  | Wintun_recreateAdapter _ => Returns None
  | Exec_cmd _ _ => -1
  | SetConsoleCtrlHandler _ => 0
  | WinDaemon_start => Returns tt
  end.

End Sample.

(** ** The dispatch of the specification: a selected command is routed to
    the operation that owns it. *)
Module Dispatch.

Import Qt Grammar WinConsole.
Local Open Scope prog_scope.

Section Dispatch.

Variable env : Env.
Variable backend : forall c : Call, list Event -> reply c.

(** The callout group notifies the running daemon after the operation. *)
Definition notifying (operation : M Z) : M Z :=
  result <- operation ;;
  sendCheckDriverHint env backend ;;
  ret result.

Definition perform (c : Command) (args : list string) : M Z :=
  match c with
  | Run => runDaemon backend
  | InstallService => callx backend WinService_installService (fun r => r)
  | UninstallService => callx backend WinService_uninstallService (fun r => r)
  | StartService => callx backend WinService_startService (fun r => r)
  | StopService => callx backend WinService_stopService (fun r => r)
  | TapInstall => installTapDriver env backend (installTapDriver_force_default env)
  | TapUninstall => uninstallTapDriver backend
  | TapReinstall => reinstallTapDriver env backend
  | TunUninstall => uninstallWintunDriver env backend
  | TunCreate => createWintunAdapter env backend
  | CalloutInstall => notifying (installCalloutDriver env backend)
  | CalloutUninstall => notifying (uninstallCalloutDriver env backend)
  | CalloutReinstall => notifying (reinstallCalloutDriver env backend)
  | Help => showHelp env
  | Unrecognized => unrecognizedCommand env args
  end.

(** The daemon's log only for [Run], the setup log for every other
    command. *)
Definition logFileFor (c : Command) : string :=
  match c with
  | Run => DaemonLogFile env
  | _ => ConfigLogFile env
  end.

(** Without a subcommand the help is shown at once; otherwise the log is
    set up and the command is performed inside the error boundary. *)
Definition run_as (c : Command) (args : list string) : M Z :=
  if count args >? 1 then
    emit (EvLogger (logFileFor c)) ;;
    try_catch (perform c args) run_catch
  else
    showHelp env.

End Dispatch.

End Dispatch.

(** ** Counting the invocations of the control client *)

Definition is_notification (e : Event) : bool :=
  match e with
  | EvCall (Exec_cmd _ _) => true
  | _ => false
  end.

Definition notifications (t : list Event) : nat :=
  List.length (filter is_notification t).

Definition is_call (e : Event) : bool :=
  match e with
  | EvCall _ => true
  | EvNewDaemon => true
  | EvDaemonStop => true
  | _ => false
  end.

(** The backend and controller operations invoked in a trace. *)
Definition operations (t : list Event) : list Event := filter is_call t.

(** ** The vocabulary of the properties *)

Import Qt Win Grammar WinConsole Dispatch.

(** A string after case folding. *)
Definition folded (s : string) : list N :=
  map foldCase (list_ascii_of_string s).

(** Names that match no token at a position. *)
Definition unmatched (args : list string) (i : nat) (names : list string) : Prop :=
  forall name, In name names -> MATCH_ARG args i name = false.

(** The system error codes the [catch] block tells apart. *)
Definition serviceStateConflict : list Z :=
  [ERROR_SERVICE_EXISTS; ERROR_SERVICE_DOES_NOT_EXIST;
   ERROR_SERVICE_ALREADY_RUNNING; ERROR_SERVICE_NOT_ACTIVE].

Definition trustOrDeletionPending : list Z :=
  [ERROR_SERVICE_MARKED_FOR_DELETE;
   ERROR_AUTHENTICODE_PUBLISHER_NOT_TRUSTED;
   ERROR_AUTHENTICODE_TRUST_NOT_ESTABLISHED].

(** The call of the control client. *)
Definition checkDriverHint (env : Env) : Call :=
  Exec_cmd (Path_div env (InstallationDir env) (BRAND_CODE env ++ "ctl.exe")%string)
           ["-u"; "checkdriver"]%string.

(** The control events the handler knows. *)
Definition stopEvents : list Z :=
  [CTRL_C_EVENT; CTRL_BREAK_EVENT; CTRL_CLOSE_EVENT; CTRL_LOGOFF_EVENT;
   CTRL_SHUTDOWN_EVENT].

(** ** Programs and what they change

    A program keeps a relation between the state it starts in and the
    state it ends in; the two relations used are: the trace is extended by
    events of a given kind only, and the [_daemon] member is left as it
    was. *)

Definition preserves {A} (R : World -> World -> Prop) (m : M A) : Prop :=
  forall w, R w (snd (m w)).

Definition extends (p : Event -> bool) (w w' : World) : Prop :=
  exists evs, trace w' = (trace w ++ evs)%list /\ forallb p evs = true.

Definition same_daemon (w w' : World) : Prop := _daemon w' = _daemon w.


Definition is_logger (e : Event) : bool :=
  match e with
  | EvLogger _ => true
  | _ => false
  end.

Definition is_session (e : Event) : bool :=
  match e with
  | EvCall WintunModule_open => true
  | EvCall WintunModule_close => true
  | _ => false
  end.


(** * Properties *)

(** ** The model at work *)

Example match_is_case_insensitive :
  Qt.compare "RUN" "run" CaseInsensitive = 0
  /\ Qt.compare "Run" "run" CaseInsensitive = 0
  /\ Qt.compare "RUN" "run" CaseSensitive <> 0.
Proof. repeat split; vm_compute; discriminate. Qed.

Example match_is_exact_token :
  MATCH_ARG ["pia-service"; "runs"] 1 "run" = false
  /\ MATCH_ARG ["pia-service"; "ru"] 1 "run" = false
  /\ MATCH_ARG ["pia-service"; "/?"] 1 "/?" = true.
Proof. repeat split. Qed.

Example run_callout_reinstall_reboot :
  run Sample.env (Sample.failing 0) ["pia-service"; "Callout"; "REINSTALL"] initial
  = (Returned 4,
     {| trace :=
          [EvLogger "C:/pia/data/config.log";
           EvCall (Tap_uninstallCalloutDriver
                     "C:/pia/wfp_callout/win10/PiaWfpCallout.inf" false);
           EvLog Info [LStr "Uninstall result:"; LInt 4];
           EvLog Info
             [LStr "Restart the computer to complete uninstallation, then install again."];
           EvCall (Exec_cmd "C:/pia/piactl.exe" ["-u"; "checkdriver"])];
        _daemon := None |}).
Proof. reflexivity. Qed.

Example run_daemon :
  run Sample.env Sample.succeeding ["pia-service"; "run"] initial
  = (Returned 0,
     {| trace :=
          [EvLogger "C:/pia/data/daemon.log";
           EvNewDaemon;
           EvConnect "Daemon::started" "QCoreApplication::exec";
           EvConnect "Daemon::stopped" "QCoreApplication::quit";
           EvCall (SetConsoleCtrlHandler 1);
           EvCall WinDaemon_start;
           EvCall (SetConsoleCtrlHandler 0)];
        _daemon := Some Stopped |}).
Proof. reflexivity. Qed.

Example run_tun_create_fails :
  fst (run Sample.env (Sample.failing 0) ["pia-service"; "tun"; "create"] initial)
  = Returned (Sample.status_int DriverInstallFailed).
Proof. reflexivity. Qed.

(** ** Case-insensitive matching *)

Lemma ucstricmp_folded (a b : string) :
  ucstricmp a b = 0 <-> folded a = folded b.
Proof.
  revert b; induction a as [|x a IH]; intros [|y b]; simpl;
    try (split; [lia | discriminate]).
  - split; reflexivity.
  - unfold folded in *; simpl.
    destruct (Z.eqb_spec (Z.of_N (foldCase x) - Z.of_N (foldCase y)) 0) as [E|E].
    + rewrite IH. assert (foldCase x = foldCase y) as -> by lia.
      split; [intros ->; reflexivity | intros H; injection H; auto].
    + split; [lia | intros H; injection H; intros _ H'; lia].
Qed.

Lemma selects_folded (token name : string) :
  selects token name = true <-> folded token = folded name.
Proof.
  unfold selects, Qt.compare. rewrite Z.eqb_eq, <- ucstricmp_folded.
  split; congruence.
Qed.

Lemma foldCase_toLower (x : ascii) : foldCase (toLower x) = foldCase x.
Proof. destruct x as [[] [] [] [] [] [] [] []]; reflexivity. Qed.

Lemma case_variant_folded (s t : string) :
  case_variant s t = true -> folded s = folded t.
Proof.
  revert t; induction s as [|x s IH]; intros [|y t]; simpl; try discriminate; auto.
  rewrite andb_true_iff, Ascii.eqb_eq. intros [E V].
  unfold folded in *; simpl. rewrite (IH _ V).
  rewrite <- (foldCase_toLower x), <- (foldCase_toLower y), E. reflexivity.
Qed.

Lemma selects_case_variant (s t name : string) :
  case_variant s t = true -> selects s name = selects t name.
Proof.
  intros V. apply case_variant_folded in V.
  apply eq_true_iff_eq. rewrite !selects_folded, V. reflexivity.
Qed.

(** A token selects at most one name, up to the case of the names. *)
Lemma selects_exclusive (token a b : string) :
  selects token a = true -> selects token b = true -> folded a = folded b.
Proof. rewrite !selects_folded. congruence. Qed.

Lemma MATCH_ARG_selects (args : list string) (i : nat) (text : string) :
  MATCH_ARG args i text =
  match nth_error args i with Some a => selects a text | None => false end.
Proof. reflexivity. Qed.

Lemma count_cons (a : string) (l : list string) : count (a :: l) = 1 + count l.
Proof. unfold count. simpl List.length. lia. Qed.

Lemma count_nonneg (l : list string) : 0 <= count l.
Proof. unfold count. lia. Qed.

(** Two names that differ in more than case are never selected by the same
    token. *)
Ltac exclusive :=
  match goal with
  | H1 : selects ?t ?a = true, H2 : selects ?t ?b = true |- _ =>
      exfalso; generalize (selects_exclusive _ _ _ H1 H2);
      vm_compute; discriminate
  end.

(** ** The source dispatches the command the grammar selects *)

Section Facts.

Variable env : Env.
Variable backend : forall c : Call, list Event -> reply c.

Abbreviation run := (WinConsole.run env backend).
Abbreviation run_try := (WinConsole.run_try env backend).
Abbreviation run_as := (Dispatch.run_as env backend).
Abbreviation perform := (Dispatch.perform env backend).

Lemma run_try_by_command (args : list string) :
  count args > 1 -> run_try args = perform (selectCommand args) args.
Proof.
  destruct args as [|p [|t1 rest]]; rewrite ?count_cons;
    try (pose proof (count_nonneg []); unfold count in *; simpl; lia).
  intros _. unfold WinConsole.run_try, selectCommand.
  rewrite !MATCH_ARG_selects. cbn [nth_error].
  destruct (selects t1 "help" || selects t1 "/?"); [reflexivity|].
  destruct (selects t1 "run"); [reflexivity|].
  destruct (selects t1 "install"); [reflexivity|].
  destruct (selects t1 "uninstall"); [reflexivity|].
  destruct (selects t1 "start"); [reflexivity|].
  destruct (selects t1 "stop"); [reflexivity|].
  destruct rest as [|t2 rest].
  - replace (count [p; t1] >? 2) with false by reflexivity.
    rewrite !andb_false_r.
    destruct (selects t1 "tap"), (selects t1 "tun"), (selects t1 "callout");
      reflexivity.
  - replace (count (p :: t1 :: t2 :: rest) >? 2) with true
      by (symmetry; apply Z.gtb_lt; rewrite !count_cons;
          pose proof (count_nonneg rest); lia).
    rewrite !andb_true_r. unfold calloutOperation.
    rewrite !MATCH_ARG_selects. cbn [nth_error subAction String.eqb Ascii.eqb Bool.eqb].
    destruct (selects t1 "tap").
    { destruct (selects t2 "install"); [reflexivity|].
      destruct (selects t2 "uninstall"); [reflexivity|].
      destruct (selects t2 "reinstall"); reflexivity. }
    destruct (selects t1 "tun").
    { destruct (selects t2 "uninstall"); [reflexivity|].
      destruct (selects t2 "create"); reflexivity. }
    destruct (selects t1 "callout"); [|reflexivity].
    destruct (selects t2 "install"); [reflexivity|].
    destruct (selects t2 "uninstall"); [reflexivity|].
    destruct (selects t2 "reinstall"); reflexivity.
Qed.

Lemma logFile_by_command (args : list string) :
  count args > 1 ->
  (if MATCH_ARG args 1 "run" then DaemonLogFile env else ConfigLogFile env)
  = logFileFor env (selectCommand args).
Proof.
  destruct args as [|p [|t1 rest]]; rewrite ?count_cons;
    try (pose proof (count_nonneg []); unfold count in *; simpl; lia).
  intros _. rewrite MATCH_ARG_selects. cbn [nth_error]. unfold selectCommand.
  destruct (selects t1 "run") eqn:R.
  - destruct (selects t1 "help") eqn:H1; [exclusive|].
    destruct (selects t1 "/?") eqn:H2; [exclusive|]. reflexivity.
  - destruct (selects t1 "help" || selects t1 "/?"); [reflexivity|].
    repeat match goal with
           | |- context [if selects ?t ?n then _ else _] =>
               destruct (selects t n); try reflexivity
           | |- context [match ?l with [] => _ | _ :: _ => _ end] =>
               destruct l; try reflexivity
           end; unfold subAction; cbn [String.eqb Ascii.eqb Bool.eqb];
      repeat match goal with
             | |- context [if selects ?t ?n then _ else _] =>
                 destruct (selects t n); try reflexivity
             end.
Qed.

(** [run] is the dispatch of the command selected from its arguments. *)
Lemma run_by_command (args : list string) :
  run args = run_as (selectCommand args) args.
Proof.
  unfold WinConsole.run, Dispatch.run_as.
  destruct (count args >? 1) eqn:C; [|reflexivity].
  apply Z.gtb_lt in C.
  rewrite logFile_by_command, run_try_by_command by lia. reflexivity.
Qed.

Lemma perform_recognized (c : Command) (args args' : list string) :
  c <> Unrecognized -> perform c args' = perform c args.
Proof. destruct c; intros H; try reflexivity. contradiction. Qed.

Lemma trace_record (e : Event) (w : World) : trace (record e w) = (trace w ++ [e])%list.
Proof. reflexivity. Qed.

Lemma operations_app (t u : list Event) :
  operations (t ++ u)%list = (operations t ++ operations u)%list.
Proof. apply filter_app. Qed.

Lemma notifications_app (t u : list Event) :
  notifications (t ++ u)%list = (notifications t + notifications u)%nat.
Proof. unfold notifications. rewrite filter_app, length_app. reflexivity. Qed.

(** What [run] does with an unrecognized command. *)
Lemma run_unrecognized (args : list string) (w : World) :
  count args > 1 ->
  selectCommand args = Unrecognized ->
  run args w =
  (Returned 1,
   record (EvStdout
             [("Unrecognized command; type '"
               ++ match at_ args 0 with Some a => baseName env a | None => "" end
               ++ " help' for a list of available commands.")%string])
     (record (EvLog Critical [LStr "Unrecognized command:"; LList (mid args 1)])
        (record (EvLogger (ConfigLogFile env)) w))).
Proof.
  intros C U. rewrite run_by_command, U. unfold Dispatch.run_as.
  replace (count args >? 1) with true by (symmetry; apply Z.gtb_lt; lia).
  reflexivity.
Qed.

Lemma selectCommand_unrecognized (args : list string) :
  count args >= 2 ->
  unmatched args 1 primaryCommands \/
  (exists group, In group groups /\ MATCH_ARG args 1 group = true /\
     (count args = 2 \/ unmatched args 2 (subActions group))) ->
  selectCommand args = Unrecognized.
Proof.
  destruct args as [|p [|t1 rest]]; rewrite ?count_cons;
    try (pose proof (count_nonneg []); unfold count in *; simpl; lia).
  intros _ [U | (g & G & M & S)].
  - assert (U' : forall n, In n primaryCommands -> selects t1 n = false)
      by exact U.
    unfold selectCommand. rewrite !U' by (simpl; auto 20). reflexivity.
  - rewrite MATCH_ARG_selects in M. cbn [nth_error] in M.
    assert (T : match rest with
                | [] => True
                | t2 :: _ => forall n, In n (subActions g) -> selects t2 n = false
                end).
    { destruct rest as [|t2 rest]; [exact I|].
      destruct S as [S|S].
      - rewrite !count_cons in S. pose proof (count_nonneg rest). lia.
      - intros n N. apply (S n N). }
    clear S. unfold selectCommand.
    destruct (selects t1 "help") eqn:H1;
      [simpl in G; destruct G as [<-|[<-|[<-|[]]]]; exclusive|].
    destruct (selects t1 "/?") eqn:H2;
      [simpl in G; destruct G as [<-|[<-|[<-|[]]]]; exclusive|].
    destruct (selects t1 "run") eqn:H3;
      [simpl in G; destruct G as [<-|[<-|[<-|[]]]]; exclusive|].
    destruct (selects t1 "install") eqn:H4;
      [simpl in G; destruct G as [<-|[<-|[<-|[]]]]; exclusive|].
    destruct (selects t1 "uninstall") eqn:H5;
      [simpl in G; destruct G as [<-|[<-|[<-|[]]]]; exclusive|].
    destruct (selects t1 "start") eqn:H6;
      [simpl in G; destruct G as [<-|[<-|[<-|[]]]]; exclusive|].
    destruct (selects t1 "stop") eqn:H7;
      [simpl in G; destruct G as [<-|[<-|[<-|[]]]]; exclusive|].
    cbn [orb].
    simpl in G; destruct G as [<-|[<-|[<-|[]]]].
    + rewrite M. destruct rest as [|t2 rest]; [reflexivity|].
      unfold subAction; cbn [String.eqb Ascii.eqb Bool.eqb].
      rewrite !T by (simpl; auto). reflexivity.
    + destruct (selects t1 "tap") eqn:H8; [exclusive|]. rewrite M.
      destruct rest as [|t2 rest]; [reflexivity|].
      unfold subAction; cbn [String.eqb Ascii.eqb Bool.eqb].
      rewrite !T by (simpl; auto). reflexivity.
    + destruct (selects t1 "tap") eqn:H8; [exclusive|].
      destruct (selects t1 "tun") eqn:H9; [exclusive|]. rewrite M.
      destruct rest as [|t2 rest]; [reflexivity|].
      unfold subAction; cbn [String.eqb Ascii.eqb Bool.eqb].
      rewrite !T by (simpl; auto). reflexivity.
Qed.

(** ** Unrecognized commands and the help *)

(** C4: for every argument vector with at least two tokens whose token 1
    matches no known command, or whose token 1 is one of tap, tun, callout
    while token 2 is absent or matches no sub-action of that group, [run]
    invokes no backend or controller operation, emits the offending tokens
    and the usage hint, and returns exit code 1. *)
Theorem unrecognized_command_exit_code (args : list string) (w : World) :
  count args >= 2 ->
  unmatched args 1 primaryCommands \/
  (exists group, In group groups /\ MATCH_ARG args 1 group = true /\
     (count args = 2 \/ unmatched args 2 (subActions group))) ->
  run args w =
  (Returned 1,
   record (EvStdout
             [("Unrecognized command; type '"
               ++ match at_ args 0 with Some a => baseName env a | None => "" end
               ++ " help' for a list of available commands.")%string])
     (record (EvLog Critical [LStr "Unrecognized command:"; LList (mid args 1)])
        (record (EvLogger (ConfigLogFile env)) w)))
  /\ operations (trace (snd (run args w))) = operations (trace w).
Proof.
  intros C H.
  pose proof (selectCommand_unrecognized args C H) as U.
  rewrite (run_unrecognized args w) by (lia || exact U).
  split; [reflexivity|].
  cbn [snd]. rewrite !trace_record, !operations_app. cbn.
  rewrite !app_nil_r. reflexivity.
Qed.

(** C5, as the code has it: for every argument vector with fewer than two
    tokens, [run] behaves as [Help]: it prints the usage text, returns exit
    code 0, and no backend operation is invoked. *)
Theorem run_without_command_shows_help (args : list string) (w : World) :
  count args < 2 ->
  selectCommand args = Help
  /\ run args w = (Returned 0, record (EvStdout (helpText env)) w)
  /\ operations (trace (snd (run args w))) = operations (trace w).
Proof.
  intros C.
  assert (S : selectCommand args = Help).
  { destruct args as [|p [|t1 rest]]; try reflexivity.
    rewrite !count_cons in C. pose proof (count_nonneg rest). lia. }
  assert (R : run args w = (Returned 0, record (EvStdout (helpText env)) w)).
  { unfold WinConsole.run.
    replace (count args >? 1) with false; [reflexivity|].
    symmetry. rewrite Z.gtb_ltb. apply Z.ltb_ge. lia. }
  repeat split; try assumption.
  rewrite R. cbn [snd]. rewrite trace_record, operations_app. cbn.
  apply app_nil_r.
Qed.

(** ** Letter case *)

Lemma selectCommand_case_variant (args args' : list string) :
  Forall2 (fun s t => case_variant s t = true) args args' ->
  selectCommand args' = selectCommand args.
Proof.
  intros F. destruct F as [|p p' r r' _ F]; [reflexivity|].
  destruct F as [|t1 t1' r r' V1 F]; [reflexivity|].
  unfold selectCommand.
  rewrite <- !(selects_case_variant t1 t1') by exact V1.
  destruct F as [|t2 t2' r r' V2 F]; [reflexivity|].
  unfold subAction.
  rewrite <- !(selects_case_variant t2 t2') by exact V2.
  reflexivity.
Qed.

(** C9: command matching is invariant under letter case: replacing tokens
    by case variants selects the same [Command] and dispatches the same
    operation (the whole run is the same when the command is recognized;
    an unrecognized command is reported with the tokens as they were
    typed); in particular RUN, Run and run all select [Run]. *)
Theorem command_matching_case_invariant (args args' : list string) :
  Forall2 (fun s t => case_variant s t = true) args args' ->
  selectCommand args' = selectCommand args
  /\ run args' = run_as (selectCommand args) args'
  /\ (selectCommand args <> Unrecognized -> forall w, run args' w = run args w)
  /\ (forall prog, selectCommand [prog; "RUN"] = Run
                   /\ selectCommand [prog; "Run"] = Run
                   /\ selectCommand [prog; "run"] = Run).
Proof.
  intros F. pose proof (selectCommand_case_variant _ _ F) as S.
  split; [exact S|]. split; [rewrite run_by_command, S; reflexivity|]. split.
  - intros U w. rewrite !run_by_command, S. unfold Dispatch.run_as.
    replace (count args') with (count args)
      by (unfold count; rewrite (Forall2_length F); reflexivity).
    rewrite (perform_recognized _ args args' U). reflexivity.
  - intros prog. repeat split.
Qed.

(** ** The error boundary *)

Lemma run_catch_code (e : Error) (w : World) :
  exists code,
    run_catch e w = (Returned code, record (EvLog Critical [LError e]) w)
    /\ (In (systemCode e) serviceStateConflict -> code = 2)
    /\ (In (systemCode e) trustOrDeletionPending -> code = 3)
    /\ (~ In (systemCode e) (serviceStateConflict ++ trustOrDeletionPending)%list
        -> code = 1).
Proof.
  unfold run_catch, qCritical, bind, emit.
  unfold serviceStateConflict, trustOrDeletionPending.
  change ERROR_AUTHENTICODE_PUBLISHER_NOT_TRUSTED with 3758096963.
  change ERROR_AUTHENTICODE_TRUST_NOT_ESTABLISHED with 3758096962.
  unfold ERROR_SERVICE_EXISTS, ERROR_SERVICE_DOES_NOT_EXIST,
    ERROR_SERVICE_ALREADY_RUNNING, ERROR_SERVICE_NOT_ACTIVE,
    ERROR_SERVICE_MARKED_FOR_DELETE.
  cbn [In app].
  destruct (Z.eqb_spec (systemCode e) 1073);
  destruct (Z.eqb_spec (systemCode e) 1060);
  destruct (Z.eqb_spec (systemCode e) 1056);
  destruct (Z.eqb_spec (systemCode e) 1062);
  destruct (Z.eqb_spec (systemCode e) 1072);
  destruct (Z.eqb_spec (systemCode e) 3758096963);
  destruct (Z.eqb_spec (systemCode e) 3758096962);
  try lia; cbn [orb]; eexists; (split; [reflexivity|]);
  repeat split; intros; lia.
Qed.

(** C1: for every domain error caught at the dispatch boundary of [run],
    the exit code is 2 when its system code is service-already-exists,
    service-does-not-exist, service-already-running or service-not-active,
    3 when it is service-marked-for-deletion or one of the two
    publisher-verification failures, and 1 for any other system code; a
    command that completes without raising an error returns its own result
    and does not go through this mapping. *)
Theorem run_error_exit_code (args : list string) (w : World) :
  count args > 1 ->
  let w1 :=
    record (EvLogger (if MATCH_ARG args 1 "run"
                      then DaemonLogFile env else ConfigLogFile env)) w in
  (forall e w', run_try args w1 = (Thrown e, w') ->
     exists code,
       run args w = (Returned code, record (EvLog Critical [LError e]) w')
       /\ (In (systemCode e) serviceStateConflict -> code = 2)
       /\ (In (systemCode e) trustOrDeletionPending -> code = 3)
       /\ (~ In (systemCode e)
               (serviceStateConflict ++ trustOrDeletionPending)%list
           -> code = 1))
  /\ (forall v w', run_try args w1 = (Returned v, w') ->
        run args w = (Returned v, w')).
Proof.
  intros C w1.
  assert (R : run args w = try_catch (run_try args) run_catch w1).
  { unfold WinConsole.run.
    replace (count args >? 1) with true by (symmetry; apply Z.gtb_lt; lia).
    reflexivity. }
  rewrite R. unfold try_catch. split.
  - intros e w' ->. apply run_catch_code.
  - intros v w' ->. reflexivity.
Qed.

(** ** The driver operations *)

Ltac step :=
  unfold installCalloutDriver, uninstallCalloutDriver, installTapDriver,
    uninstallTapDriver, sendCheckDriverHint, qInfo, qWarning, qCritical,
    callx, call, bind, ret, throw, emit;
  cbn [fst snd].

(** C2: in [reinstallCalloutDriver], when the uninstall phase's result is
    [DriverUninstalledReboot] the install phase is not invoked and that
    result is returned; for every other uninstall result the install phase
    is invoked and its result is the result of the reinstall. *)
Theorem reinstallCalloutDriver_reboot_gate (w : World) (r : Z) :
  let inf := getWfpCalloutInfPath env in
  let w1 :=
    record (EvLog Info [LStr "Uninstall result:"; LInt r])
      (record (EvCall (Tap_uninstallCalloutDriver inf false)) w) in
  backend (Tap_uninstallCalloutDriver inf false) (trace w) = Returns r ->
  (r = DriverStatus_int env DriverUninstalledReboot ->
     reinstallCalloutDriver env backend w =
     (Returned (DriverStatus_int env DriverUninstalledReboot),
      record (EvLog Info
                [LStr "Restart the computer to complete uninstallation, then install again."])
        w1)
     /\ operations (trace (snd (reinstallCalloutDriver env backend w))) =
        (operations (trace w)
           ++ [EvCall (Tap_uninstallCalloutDriver inf false)])%list)
  /\ (r <> DriverStatus_int env DriverUninstalledReboot ->
        reinstallCalloutDriver env backend w = installCalloutDriver env backend w1
        /\ operations (trace (snd (reinstallCalloutDriver env backend w))) =
           (operations (trace w)
              ++ [EvCall (Tap_uninstallCalloutDriver inf false);
                  EvCall (Tap_installCalloutDriver inf false)])%list).
Proof.
  intros inf w1 U.
  assert (E : forall k : Z -> M Z,
             bind (callx backend (Tap_uninstallCalloutDriver inf false) (fun x => x)) k w
             = k r (record (EvCall (Tap_uninstallCalloutDriver inf false)) w)).
  { intros k. step. cbv beta. rewrite U. reflexivity. }
  unfold reinstallCalloutDriver. fold inf. rewrite E. clear E. split.
  - intros ->. step. rewrite Z.eqb_refl. split; [reflexivity|].
    cbn [snd]. rewrite !trace_record, !operations_app. cbn.
    rewrite !app_nil_r. reflexivity.
  - intros N. step. apply Z.eqb_neq in N. rewrite N. split; [reflexivity|].
    cbv beta.
    destruct (backend (Tap_installCalloutDriver inf false) _);
      cbn [snd]; rewrite !trace_record, !operations_app; cbn;
      rewrite ?app_nil_r, <- ?app_assoc; reflexivity.
Qed.

(** C7: in [reinstallTapDriver] the uninstall phase is invoked first and
    its result is discarded, whatever it is; then the install phase is
    invoked with force set, and its raw result is the result of the
    reinstall. *)
Theorem reinstallTapDriver_installs_anyway (w : World) (r : Z) :
  let uninstall := Tap_uninstallTapDriver false false in
  let install := Tap_installTapDriver (getInfPath env) false true false in
  backend uninstall (trace w) = Returns r ->
  reinstallTapDriver env backend w
  = installTapDriver env backend true (record (EvCall uninstall) w)
  /\ reinstallTapDriver env backend w
     = (match backend install (trace w ++ [EvCall uninstall])%list with
        | Returns v => Returned v
        | Raises e => Thrown e
        end,
        record (EvCall install) (record (EvCall uninstall) w))
  /\ operations (trace (snd (reinstallTapDriver env backend w))) =
     (operations (trace w) ++ [EvCall uninstall; EvCall install])%list.
Proof.
  intros uninstall install U.
  assert (E : reinstallTapDriver env backend w
              = installTapDriver env backend true (record (EvCall uninstall) w)).
  { unfold reinstallTapDriver. step. cbv beta. fold uninstall. rewrite U.
    reflexivity. }
  split; [exact E|]. rewrite E. step. cbv beta. fold install.
  rewrite trace_record.
  destruct (backend install _); (split; [reflexivity|]);
    cbn [snd]; rewrite !trace_record, !operations_app; cbn;
    rewrite ?app_nil_r, <- ?app_assoc; reflexivity.
Qed.

(** ** The callout group and the notification of the running daemon *)

Lemma selectCommand_callout (args : list string) :
  MATCH_ARG args 1 "callout" = true ->
  count args > 1 /\
  selectCommand args =
  match nth_error args 2 with
  | Some token2 => subAction "callout" token2
  | None => Unrecognized
  end.
Proof.
  rewrite MATCH_ARG_selects.
  destruct args as [|p [|t1 rest]]; cbn [nth_error]; try discriminate.
  intros M. split.
  { rewrite !count_cons. pose proof (count_nonneg rest). lia. }
  unfold selectCommand.
  destruct (selects t1 "help") eqn:H1; [exclusive|].
  destruct (selects t1 "/?") eqn:H2; [exclusive|].
  destruct (selects t1 "run") eqn:H3; [exclusive|].
  destruct (selects t1 "install") eqn:H4; [exclusive|].
  destruct (selects t1 "uninstall") eqn:H5; [exclusive|].
  destruct (selects t1 "start") eqn:H6; [exclusive|].
  destruct (selects t1 "stop") eqn:H7; [exclusive|].
  destruct (selects t1 "tap") eqn:H8; [exclusive|].
  destruct (selects t1 "tun") eqn:H9; [exclusive|].
  rewrite M. destruct rest; reflexivity.
Qed.

(** The callout operations themselves do not run the control client. *)
Lemma callout_operations_quiet (operation : M Z) (w : World) :
  operation = installCalloutDriver env backend \/
  operation = uninstallCalloutDriver env backend \/
  operation = reinstallCalloutDriver env backend ->
  notifications (trace (snd (operation w))) = notifications (trace w).
Proof.
  intros [-> | [-> | ->]]; unfold reinstallCalloutDriver; step; cbv beta.
  - destruct (backend (Tap_installCalloutDriver _ _) _);
      cbn [snd]; rewrite trace_record, notifications_app; cbn; lia.
  - destruct (backend (Tap_uninstallCalloutDriver _ _) _);
      cbn [snd]; rewrite trace_record, notifications_app; cbn; lia.
  - destruct (backend (Tap_uninstallCalloutDriver _ _) _) as [r|e];
      cbn [snd]; [|rewrite trace_record, notifications_app; cbn; lia].
    destruct (r =? _); cbn [snd];
      [rewrite !trace_record, !notifications_app; cbn; lia|].
    destruct (backend (Tap_installCalloutDriver _ _) _);
      cbn [snd]; rewrite !trace_record, !notifications_app; cbn; lia.
Qed.

(** With token 1 matching callout and token 2 one of its sub-actions,
    [run] is the matching operation followed by the notification, inside
    the error boundary, with the setup log. *)
Lemma run_callout (args : list string) (operation : M Z) (w : World) :
  MATCH_ARG args 1 "callout" = true ->
  (MATCH_ARG args 2 "install" = true
   /\ operation = installCalloutDriver env backend)
  \/ (MATCH_ARG args 2 "uninstall" = true
      /\ operation = uninstallCalloutDriver env backend)
  \/ (MATCH_ARG args 2 "reinstall" = true
      /\ operation = reinstallCalloutDriver env backend) ->
  run args w =
  try_catch (notifying env backend operation) run_catch
    (record (EvLogger (ConfigLogFile env)) w).
Proof.
  intros M1 M2.
  destruct (selectCommand_callout args M1) as [C S].
  assert (P : perform (selectCommand args) args = notifying env backend operation).
  { rewrite S. rewrite !MATCH_ARG_selects in M2.
    destruct (nth_error args 2) as [t2|]; [|intuition discriminate].
    unfold subAction. cbn [String.eqb Ascii.eqb Bool.eqb].
    destruct M2 as [[T ->] | [[T ->] | [T ->]]].
    - rewrite T. reflexivity.
    - destruct (selects t2 "install") eqn:T1; [exclusive|].
      rewrite T. reflexivity.
    - destruct (selects t2 "install") eqn:T1; [exclusive|].
      destruct (selects t2 "uninstall") eqn:T2; [exclusive|].
      rewrite T. reflexivity. }
  assert (L : logFileFor env (selectCommand args) = ConfigLogFile env).
  { rewrite S. destruct (nth_error args 2) as [t2|]; [|reflexivity].
    unfold subAction. cbn [String.eqb Ascii.eqb Bool.eqb].
    repeat match goal with
           | |- context [if selects ?t ?n then _ else _] =>
               destruct (selects t n); try reflexivity
           end. }
  rewrite run_by_command. unfold Dispatch.run_as.
  replace (count args >? 1) with true by (symmetry; apply Z.gtb_lt; lia).
  rewrite P, L. reflexivity.
Qed.

(** C3: when token 1 matches callout and token 2 matches install,
    uninstall or reinstall, [run] invokes the matching callout operation,
    then runs the control client exactly once whatever status the
    operation returned, and returns that status as the exit code; the
    answer of the control client has no part in the exit code. *)
Theorem callout_notifies_once
    (args : list string) (operation : M Z) (w w' : World) (r : Z) :
  MATCH_ARG args 1 "callout" = true ->
  (MATCH_ARG args 2 "install" = true
   /\ operation = installCalloutDriver env backend)
  \/ (MATCH_ARG args 2 "uninstall" = true
      /\ operation = uninstallCalloutDriver env backend)
  \/ (MATCH_ARG args 2 "reinstall" = true
      /\ operation = reinstallCalloutDriver env backend) ->
  operation (record (EvLogger (ConfigLogFile env)) w) = (Returned r, w') ->
  run args w = (Returned r, record (EvCall (checkDriverHint env)) w')
  /\ notifications (trace (snd (run args w))) = S (notifications (trace w)).
Proof.
  intros M1 M2 O.
  assert (R : run args w = (Returned r, record (EvCall (checkDriverHint env)) w')).
  { rewrite (run_callout args operation w M1 M2).
    unfold notifying, try_catch, bind at 1. rewrite O. reflexivity. }
  split; [exact R|]. rewrite R. cbn [snd].
  rewrite trace_record, notifications_app.
  assert (Q : notifications (trace w') = notifications (trace w)).
  { change w' with (snd (Returned r, w')). rewrite <- O.
    rewrite callout_operations_quiet by tauto.
    rewrite trace_record, notifications_app. cbn. lia. }
  rewrite Q. cbn. lia.
Qed.

(** When the callout operation raises instead of returning a status, the
    error is caught at the boundary and the control client is not run. *)
Remark callout_raises_no_notification
    (args : list string) (operation : M Z) (w w' : World) (e : Error) :
  MATCH_ARG args 1 "callout" = true ->
  (MATCH_ARG args 2 "install" = true
   /\ operation = installCalloutDriver env backend)
  \/ (MATCH_ARG args 2 "uninstall" = true
      /\ operation = uninstallCalloutDriver env backend)
  \/ (MATCH_ARG args 2 "reinstall" = true
      /\ operation = reinstallCalloutDriver env backend) ->
  operation (record (EvLogger (ConfigLogFile env)) w) = (Thrown e, w') ->
  run args w = run_catch e w'
  /\ notifications (trace (snd (run args w))) = notifications (trace w).
Proof.
  intros M1 M2 O.
  assert (R : run args w = run_catch e w').
  { rewrite (run_callout args operation w M1 M2).
    unfold notifying, try_catch, bind at 1. rewrite O. reflexivity. }
  split; [exact R|]. rewrite R.
  destruct (run_catch_code e w') as (code & -> & _). cbn [snd].
  rewrite trace_record, notifications_app.
  change w' with (snd (@Thrown Z e, w')). rewrite <- O.
  rewrite callout_operations_quiet by tauto.
  rewrite trace_record, notifications_app. cbn. lia.
Qed.

(** ** The wintun operations *)

(** C10: [uninstallWintunDriver] returns [DriverUninstallFailed] when the
    deletion of the driver fails and [DriverUninstalled] when it succeeds;
    [createWintunAdapter] returns [DriverInstallFailed] when no adapter is
    created and [DriverInstalled] when one is; neither ever returns
    [DriverUninstalledReboot] or [DriverInstalledReboot], the reboot flags
    being local variables that are false and never written. *)
Theorem wintun_never_asks_reboot (w : World) :
  (forall a b, DriverStatus_int env a = DriverStatus_int env b -> a = b) ->
  let opened := (trace w ++ [EvCall WintunModule_open])%list in
  let deleted := backend Wintun_deleteDriver opened in
  let adapter := backend (Wintun_recreateAdapter (pOpenVPNName env)) opened in
  (deleted = Returns false ->
     fst (uninstallWintunDriver env backend w)
     = Returned (DriverStatus_int env DriverUninstallFailed))
  /\ (deleted = Returns true ->
        fst (uninstallWintunDriver env backend w)
        = Returned (DriverStatus_int env DriverUninstalled))
  /\ (adapter = Returns None ->
        fst (createWintunAdapter env backend w)
        = Returned (DriverStatus_int env DriverInstallFailed))
  /\ (forall a, adapter = Returns (Some a) ->
        fst (createWintunAdapter env backend w)
        = Returned (DriverStatus_int env DriverInstalled))
  /\ (forall s, s = DriverUninstalledReboot \/ s = DriverInstalledReboot ->
        fst (uninstallWintunDriver env backend w)
        <> Returned (DriverStatus_int env s)
        /\ fst (createWintunAdapter env backend w)
           <> Returned (DriverStatus_int env s)).
Proof.
  intros Inj opened deleted adapter.
  assert (U : fst (uninstallWintunDriver env backend w) =
              match deleted with
              | Returns false => Returned (DriverStatus_int env DriverUninstallFailed)
              | Returns true => Returned (DriverStatus_int env DriverUninstalled)
              | Raises e => Thrown e
              end).
  { unfold uninstallWintunDriver, WintunModule, scoped. step. cbv beta.
    change (backend Wintun_deleteDriver _) with deleted.
    destruct deleted as [[|]|e]; reflexivity. }
  assert (A : fst (createWintunAdapter env backend w) =
              match adapter with
              | Returns None => Returned (DriverStatus_int env DriverInstallFailed)
              | Returns (Some _) => Returned (DriverStatus_int env DriverInstalled)
              | Raises e => Thrown e
              end).
  { unfold createWintunAdapter, WintunModule, scoped. step. cbv beta.
    change (backend (Wintun_recreateAdapter _) _) with adapter.
    destruct adapter as [[a|]|e]; reflexivity. }
  rewrite U, A. clear U A. clearbody deleted adapter.
  split; [intros ->; reflexivity|].
  split; [intros ->; reflexivity|].
  split; [intros ->; reflexivity|].
  split; [intros a ->; reflexivity|].
  intros s Hs. split.
  - destruct deleted as [[|]|e]; destruct Hs as [-> | ->]; intros E;
      try discriminate; injection E; intros E'; apply Inj in E'; discriminate.
  - destruct adapter as [[a|]|e]; destruct Hs as [-> | ->]; intros E;
      try discriminate; injection E; intros E'; apply Inj in E'; discriminate.
Qed.

(** ** Starting and stopping the daemon *)

(** What [runDaemon] does up to the call of [start], whatever state it is
    entered in. *)
Lemma runDaemon_starts (w : World) :
  exists rest,
    trace (snd (runDaemon backend w)) =
    (trace w
       ++ [EvNewDaemon;
           EvConnect "Daemon::started" "QCoreApplication::exec";
           EvConnect "Daemon::stopped" "QCoreApplication::quit";
           EvCall (SetConsoleCtrlHandler TRUE);
           EvCall WinDaemon_start]
       ++ rest)%list.
Proof.
  unfold runDaemon, daemon_start, new_WinDaemon. step. cbv beta.
  unfold record. cbn [_daemon trace].
  destruct (backend WinDaemon_start _) as [[]|e]; cbn [snd trace].
  - destruct (backend (SetConsoleCtrlHandler TRUE) _ =? 0); cbn [negb snd trace].
    + exists []. rewrite <- !app_assoc. reflexivity.
    + exists [EvCall (SetConsoleCtrlHandler FALSE)].
      rewrite <- !app_assoc. reflexivity.
  - exists []. rewrite <- !app_assoc. reflexivity.
Qed.

(** C6, as the code has it: once [runDaemon] has constructed the daemon,
    [stopDaemon] neither throws nor faults and forwards the request to the
    daemon's stop entry point; invoked twice in succession, the second call
    leaves the daemon as the first one left it; and [runDaemon] constructs
    the daemon and calls its [start] in whatever state it is entered. *)
Theorem stopDaemon_after_construction (w : World) (d : DaemonState) :
  _daemon w = Some d ->
  (exists w1 w2,
     stopDaemon w = (Returned tt, w1)
     /\ trace w1 = (trace w ++ [EvDaemonStop])%list
     /\ _daemon w1 = Some (Daemon_stop d)
     /\ stopDaemon w1 = (Returned tt, w2)
     /\ _daemon w2 = _daemon w1)
  /\ (forall w0, exists rest,
        trace (snd (runDaemon backend w0)) =
        (trace w0
           ++ [EvNewDaemon;
               EvConnect "Daemon::started" "QCoreApplication::exec";
               EvConnect "Daemon::stopped" "QCoreApplication::quit";
               EvCall (SetConsoleCtrlHandler TRUE);
               EvCall WinDaemon_start]
           ++ rest)%list).
Proof.
  intros D. split; [|exact runDaemon_starts].
  unfold stopDaemon. rewrite D. eexists. eexists.
  split; [reflexivity|]. split; [reflexivity|]. cbn [_daemon].
  split; [reflexivity|].
  split; [reflexivity|]. cbn [_daemon]. destruct d; reflexivity.
Qed.

End Facts.

(** ** The console control handler *)


(** C8: on Ctrl-C and Ctrl-Break the handler requests the stop of the
    daemon and returns TRUE; on close, logoff and shutdown it requests the
    stop and returns FALSE at once, the request being all it does; on any
    other event it returns FALSE and requests nothing. *)
Theorem ctrlHandler_requests_stop (dwCtrlType : Z) (w : World) :
  let requested :=
    record (EvInvokeMethod "stopDaemon") (record (EvStderr ["Terminating..."]) w) in
  (dwCtrlType = CTRL_C_EVENT \/ dwCtrlType = CTRL_BREAK_EVENT ->
     ctrlHandler dwCtrlType w = (Returned TRUE, requested))
  /\ (dwCtrlType = CTRL_CLOSE_EVENT \/ dwCtrlType = CTRL_LOGOFF_EVENT
      \/ dwCtrlType = CTRL_SHUTDOWN_EVENT ->
        ctrlHandler dwCtrlType w = (Returned FALSE, requested))
  /\ (~ In dwCtrlType stopEvents ->
        ctrlHandler dwCtrlType w = (Returned FALSE, w)).
Proof.
  intros requested. repeat split.
  - intros [-> | ->]; reflexivity.
  - intros [-> | [-> | ->]]; reflexivity.
  - intros N. unfold ctrlHandler.
    unfold stopEvents, CTRL_C_EVENT, CTRL_BREAK_EVENT, CTRL_CLOSE_EVENT,
      CTRL_LOGOFF_EVENT, CTRL_SHUTDOWN_EVENT in *.
    cbn [In] in N.
    destruct (Z.eqb_spec dwCtrlType 0); [lia|].
    destruct (Z.eqb_spec dwCtrlType 1); [lia|].
    destruct (Z.eqb_spec dwCtrlType 2); [lia|].
    destruct (Z.eqb_spec dwCtrlType 5); [lia|].
    destruct (Z.eqb_spec dwCtrlType 6); [lia|].
    reflexivity.
Qed.

(** * The theorems at work on the example configuration *)

(** A domain error of each bucket, and a command that completes. *)
Lemma run_error_exit_code_witness :
  fst (run Sample.env (Sample.failing ERROR_SERVICE_ALREADY_RUNNING)
         ["pia-service"; "start"] initial) = Returned 2
  /\ fst (run Sample.env (Sample.failing ERROR_AUTHENTICODE_PUBLISHER_NOT_TRUSTED)
            ["pia-service"; "install"] initial) = Returned 3
  /\ fst (run Sample.env (Sample.failing 5)
            ["pia-service"; "stop"] initial) = Returned 1
  /\ fst (run Sample.env Sample.succeeding
            ["pia-service"; "start"] initial) = Returned 0.
Proof.
  split; [|split; [|split]].
  - destruct (run_error_exit_code Sample.env
                (Sample.failing ERROR_SERVICE_ALREADY_RUNNING)
                ["pia-service"; "start"] initial eq_refl) as [T _].
    destruct (T _ _ eq_refl) as (code & R & C & _).
    rewrite R, C; [reflexivity | simpl; auto].
  - destruct (run_error_exit_code Sample.env
                (Sample.failing ERROR_AUTHENTICODE_PUBLISHER_NOT_TRUSTED)
                ["pia-service"; "install"] initial eq_refl) as [T _].
    destruct (T _ _ eq_refl) as (code & R & _ & C & _).
    rewrite R, C; [reflexivity | simpl; auto].
  - destruct (run_error_exit_code Sample.env (Sample.failing 5)
                ["pia-service"; "stop"] initial eq_refl) as [T _].
    destruct (T _ _ eq_refl) as (code & R & _ & _ & C).
    rewrite R, C; [reflexivity|].
    vm_compute. intros H.
    repeat (destruct H as [H|H]; [discriminate H|]). exact H.
  - destruct (run_error_exit_code Sample.env Sample.succeeding
                ["pia-service"; "start"] initial eq_refl) as [_ T].
    rewrite (T 0 _ eq_refl). reflexivity.
Defined.

(** The uninstall asks for a reboot: no install; it does not: install. *)
Lemma reinstallCalloutDriver_reboot_gate_witness :
  fst (reinstallCalloutDriver Sample.env (Sample.failing 0) initial)
  = Returned (Sample.status_int DriverUninstalledReboot)
  /\ reinstallCalloutDriver Sample.env Sample.succeeding initial
     = installCalloutDriver Sample.env Sample.succeeding
         (record (EvLog Info [LStr "Uninstall result:"; LInt 3])
            (record (EvCall (Tap_uninstallCalloutDriver
                               (getWfpCalloutInfPath Sample.env) false))
               initial)).
Proof.
  split.
  - destruct (reinstallCalloutDriver_reboot_gate Sample.env (Sample.failing 0)
                initial 4 eq_refl) as [T _].
    destruct (T eq_refl) as [R _]. rewrite R. reflexivity.
  - destruct (reinstallCalloutDriver_reboot_gate Sample.env Sample.succeeding
                initial 3 eq_refl) as [_ T].
    apply T. vm_compute. discriminate.
Defined.

(** [callout uninstall] with a backend that reports a plain success. *)
Lemma callout_notifies_once_witness :
  fst (run Sample.env Sample.succeeding
         ["pia-service"; "callout"; "uninstall"] initial)
  = Returned (Sample.status_int DriverUninstalled)
  /\ notifications
       (trace (snd (run Sample.env Sample.succeeding
                      ["pia-service"; "callout"; "uninstall"] initial)))
     = 1%nat.
Proof.
  destruct (callout_notifies_once Sample.env Sample.succeeding
              ["pia-service"; "callout"; "uninstall"]
              (uninstallCalloutDriver Sample.env Sample.succeeding)
              initial
              (snd (uninstallCalloutDriver Sample.env Sample.succeeding
                      (record (EvLogger (ConfigLogFile Sample.env)) initial)))
              3 eq_refl (or_intror (or_introl (conj eq_refl eq_refl))) eq_refl)
    as [R N].
  split; [rewrite R; reflexivity | rewrite N; reflexivity].
Defined.

(** An unknown command, a group without its sub-action, and a group with
    a sub-action of another group. *)
Lemma unrecognized_command_exit_code_witness :
  fst (run Sample.env Sample.succeeding ["pia-service"; "frobnicate"] initial)
  = Returned 1
  /\ fst (run Sample.env Sample.succeeding ["pia-service"; "TAP"] initial)
     = Returned 1
  /\ fst (run Sample.env Sample.succeeding ["pia-service"; "tun"; "install"] initial)
     = Returned 1.
Proof.
  split; [|split].
  - destruct (unrecognized_command_exit_code Sample.env Sample.succeeding
                ["pia-service"; "frobnicate"] initial) as [R _].
    + vm_compute; discriminate.
    + left. intros name H. simpl in H.
      repeat (destruct H as [<-|H]; [reflexivity|]). destruct H.
    + rewrite R. reflexivity.
  - destruct (unrecognized_command_exit_code Sample.env Sample.succeeding
                ["pia-service"; "TAP"] initial) as [R _].
    + vm_compute; discriminate.
    + right. exists "tap". split; [simpl; auto|].
      split; [reflexivity|]. left. reflexivity.
    + rewrite R. reflexivity.
  - destruct (unrecognized_command_exit_code Sample.env Sample.succeeding
                ["pia-service"; "tun"; "install"] initial) as [R _].
    + vm_compute; discriminate.
    + right. exists "tun". split; [simpl; auto|].
      split; [reflexivity|]. right. intros name H. simpl in H.
      repeat (destruct H as [<-|H]; [reflexivity|]). destruct H.
    + rewrite R. reflexivity.
Defined.

(** C5 as stated fails: with the program name alone, [run] shows the help
    and returns 0, not 1, and the command is [Help], not [Unrecognized]. *)
Lemma run_without_command_not_unrecognized :
  count ["pia-service"] < 2
  /\ selectCommand ["pia-service"] <> Unrecognized
  /\ fst (run Sample.env Sample.succeeding ["pia-service"] initial) = Returned 0
  /\ fst (run Sample.env Sample.succeeding ["pia-service"] initial) <> Returned 1.
Proof.
  split; [reflexivity|]. split; [discriminate|].
  split; [reflexivity|]. vm_compute. discriminate.
Qed.

Lemma run_without_command_shows_help_witness :
  run Sample.env Sample.succeeding ["pia-service"] initial
  = (Returned 0, record (EvStdout (helpText Sample.env)) initial).
Proof.
  destruct (run_without_command_shows_help Sample.env Sample.succeeding
              ["pia-service"] initial eq_refl) as (_ & R & _).
  exact R.
Defined.

(** C6 as stated fails: before [runDaemon] has constructed the daemon,
    [stopDaemon] dereferences a pointer to no daemon. *)
Lemma stopDaemon_before_runDaemon_faults :
  _daemon initial = None /\ stopDaemon initial = (Fault, initial).
Proof. split; reflexivity. Qed.

Lemma stopDaemon_after_construction_witness :
  exists w1 w2,
    stopDaemon (snd (new_WinDaemon initial)) = (Returned tt, w1)
    /\ trace w1 = [EvNewDaemon; EvDaemonStop]
    /\ _daemon w1 = Some Stopping
    /\ stopDaemon w1 = (Returned tt, w2)
    /\ _daemon w2 = _daemon w1.
Proof.
  destruct (stopDaemon_after_construction Sample.succeeding
              (snd (new_WinDaemon initial)) Idle eq_refl) as [T _].
  exact T.
Defined.

(** No driver is installed, the uninstall fails; the install still runs. *)
Lemma reinstallTapDriver_installs_anyway_witness :
  reinstallTapDriver Sample.env (Sample.failing 0) initial
  = installTapDriver Sample.env (Sample.failing 0) true
      (record (EvCall (Tap_uninstallTapDriver false false)) initial).
Proof.
  destruct (reinstallTapDriver_installs_anyway Sample.env (Sample.failing 0)
              initial 5 eq_refl) as [T _].
  exact T.
Defined.

Lemma ctrlHandler_requests_stop_witness :
  fst (ctrlHandler CTRL_BREAK_EVENT initial) = Returned TRUE
  /\ fst (ctrlHandler CTRL_SHUTDOWN_EVENT initial) = Returned FALSE
  /\ ctrlHandler 3 initial = (Returned FALSE, initial).
Proof.
  split; [|split].
  - destruct (ctrlHandler_requests_stop CTRL_BREAK_EVENT initial) as (T & _ & _).
    rewrite (T (or_intror eq_refl)). reflexivity.
  - destruct (ctrlHandler_requests_stop CTRL_SHUTDOWN_EVENT initial) as (_ & T & _).
    rewrite (T (or_intror (or_intror eq_refl))). reflexivity.
  - destruct (ctrlHandler_requests_stop 3 initial) as (_ & _ & T).
    apply T. vm_compute. intros H.
    repeat (destruct H as [H|H]; [discriminate H|]). exact H.
Defined.

Lemma command_matching_case_invariant_witness :
  selectCommand ["pia-service"; "CallOut"; "REINSTALL"]
  = selectCommand ["pia-service"; "callout"; "reinstall"]
  /\ forall w,
       run Sample.env Sample.succeeding ["pia-service"; "CallOut"; "REINSTALL"] w
       = run Sample.env Sample.succeeding ["pia-service"; "callout"; "reinstall"] w.
Proof.
  destruct (command_matching_case_invariant Sample.env Sample.succeeding
              ["pia-service"; "callout"; "reinstall"]
              ["pia-service"; "CallOut"; "REINSTALL"]) as (S & _ & R & _).
  - repeat constructor.
  - split; [exact S|]. apply R. vm_compute. discriminate.
Defined.

Lemma wintun_never_asks_reboot_witness :
  fst (uninstallWintunDriver Sample.env (Sample.failing 0) initial)
  = Returned (Sample.status_int DriverUninstallFailed)
  /\ fst (createWintunAdapter Sample.env Sample.succeeding initial)
     <> Returned (Sample.status_int DriverInstalledReboot).
Proof.
  assert (Inj : forall a b,
             DriverStatus_int Sample.env a = DriverStatus_int Sample.env b -> a = b).
  { intros [] [] H; first [reflexivity | discriminate H]. }
  split.
  - destruct (wintun_never_asks_reboot Sample.env (Sample.failing 0) initial Inj)
      as (T & _).
    apply T. reflexivity.
  - destruct (wintun_never_asks_reboot Sample.env Sample.succeeding initial Inj)
      as (_ & _ & _ & _ & T).
    apply (T DriverInstalledReboot). right. reflexivity.
Defined.

(** * Further properties of the console *)

(** ** Matching is being a case variant *)






(** ** Relations kept by the constructions of programs *)

Section Preserves.

Variable R : World -> World -> Prop.
Hypothesis R_refl : forall w, R w w.
Hypothesis R_trans : forall a b c, R a b -> R b c -> R a c.

Lemma preserves_ret {A} (a : A) : preserves R (ret a).
Proof. intros w. apply R_refl. Qed.

Lemma preserves_throw {A} (e : Error) : preserves R (@throw A e).
Proof. intros w. apply R_refl. Qed.

Lemma preserves_bind {A B} (m : M A) (k : A -> M B) :
  preserves R m -> (forall a, preserves R (k a)) -> preserves R (bind m k).
Proof.
  intros Hm Hk w. unfold bind. specialize (Hm w).
  destruct (m w) as [[a| e |] w']; cbn [snd] in *; auto.
  eapply R_trans; [exact Hm | apply Hk].
Qed.

Lemma preserves_try_catch {A} (body : M A) (handler : Error -> M A) :
  preserves R body -> (forall e, preserves R (handler e)) ->
  preserves R (try_catch body handler).
Proof.
  intros Hb Hh w. unfold try_catch. specialize (Hb w).
  destruct (body w) as [[a| e |] w']; cbn [snd] in *; auto.
  eapply R_trans; [exact Hb | apply Hh].
Qed.

Lemma preserves_scoped {A} (open close : M unit) (body : M A) :
  preserves R open -> preserves R close -> preserves R body ->
  preserves R (scoped open close body).
Proof.
  intros Ho Hc Hb. unfold scoped. apply preserves_bind; [exact Ho|].
  intros _ w. specialize (Hb w). destruct (body w) as [r w']. cbn [snd] in *.
  eapply R_trans; [exact Hb | apply Hc].
Qed.

Lemma preserves_emit (e : Event) :
  (forall w, R w (record e w)) -> preserves R (emit e).
Proof. intros H w. apply H. Qed.

Section Calls.

Variable backend : forall c : Call, list Event -> reply c.

Lemma preserves_call (c : Call) :
  (forall w, R w (record (EvCall c) w)) -> preserves R (call backend c).
Proof. intros H w. apply H. Qed.

Lemma preserves_callx {T} (c : Call) (cast : reply c -> Reply T) :
  (forall w, R w (record (EvCall c) w)) -> preserves R (callx backend c cast).
Proof.
  intros H. unfold callx. apply preserves_bind; [apply preserves_call, H|].
  intros r. destruct (cast r); [apply preserves_ret | apply preserves_throw].
Qed.

End Calls.

End Preserves.

Lemma extends_refl (p : Event -> bool) (w : World) : extends p w w.
Proof. exists []. split; [symmetry; apply app_nil_r | reflexivity]. Qed.

Lemma extends_trans (p : Event -> bool) (a b c : World) :
  extends p a b -> extends p b c -> extends p a c.
Proof.
  intros (e1 & E1 & F1) (e2 & E2 & F2). exists (e1 ++ e2)%list.
  rewrite E2, E1, app_assoc, forallb_app, F1, F2. split; reflexivity.
Qed.

Lemma extends_record (p : Event -> bool) (e : Event) (w : World) :
  p e = true -> extends p w (record e w).
Proof. intros H. exists [e]. simpl. rewrite H. split; reflexivity. Qed.

Lemma same_daemon_refl (w : World) : same_daemon w w.
Proof. reflexivity. Qed.

Lemma same_daemon_trans (a b c : World) :
  same_daemon a b -> same_daemon b c -> same_daemon a c.
Proof. unfold same_daemon. congruence. Qed.

Lemma same_daemon_record (e : Event) (w : World) : same_daemon w (record e w).
Proof. reflexivity. Qed.

(** The proof of a relation kept by a program follows the program. *)
Ltac follow R Rrefl Rtrans Rrecord :=
  repeat first
    [ assumption
    | match goal with
      | |- preserves _ (ret _) => apply (preserves_ret R Rrefl)
      | |- preserves _ (throw _) => apply (preserves_throw R Rrefl)
      | |- preserves _ (emit _) => apply (preserves_emit R); intros; Rrecord
      | |- preserves _ (call ?b ?c) =>
          apply (preserves_call R b c); intros; Rrecord
      | |- preserves _ (callx _ _ _) =>
          apply (preserves_callx R Rrefl Rtrans); intros; Rrecord
      | |- preserves _ (scoped _ _ _) => apply (preserves_scoped R Rtrans)
      | |- preserves _ (try_catch _ _) =>
          apply (preserves_try_catch R Rtrans); [|intros ?]
      | |- preserves _ (bind _ _) =>
          apply (preserves_bind R Rtrans); [|intros ?]
      | |- preserves _ (if ?b then _ else _) => destruct b
      | |- preserves _ (match (if ?b then _ else _) with
                        | Some _ => _ | None => _ end) =>
          destruct b; cbv beta iota
      | |- preserves _ (match ?o with Some _ => _ | None => _ end) =>
          destruct o
      end ].

Ltac follow_extends p :=
  follow (extends p) (extends_refl p) (extends_trans p)
         ltac:(apply extends_record; auto).

Ltac follow_daemon :=
  follow same_daemon same_daemon_refl same_daemon_trans
         ltac:(apply same_daemon_record).

Ltac open_operations :=
  unfold showHelp, unrecognizedCommand, installTapDriver, uninstallTapDriver,
    reinstallTapDriver, uninstallWintunDriver, createWintunAdapter,
    WintunModule, installCalloutDriver, uninstallCalloutDriver,
    reinstallCalloutDriver, sendCheckDriverHint, run_catch, qInfo, qWarning,
    qCritical.

Section More.

Variable env : Env.
Variable backend : forall c : Call, list Event -> reply c.

Abbreviation run := (WinConsole.run env backend).
Abbreviation run_try := (WinConsole.run_try env backend).

(** What [runDaemon] appends to the trace. *)
Lemma runDaemon_extends (p : Event -> bool) :
  p EvNewDaemon = true ->
  (forall a b, p (EvConnect a b) = true) ->
  (forall add, p (EvCall (SetConsoleCtrlHandler add)) = true) ->
  p (EvCall WinDaemon_start) = true ->
  preserves (extends p) (runDaemon backend).
Proof.
  intros P1 P2 P3 P4 w. unfold runDaemon, daemon_start, new_WinDaemon.
  unfold callx, call, bind, ret, throw, emit, record. cbn [_daemon trace fst snd].
  destruct (backend WinDaemon_start _) as [[]|e]; cbn [snd trace].
  - destruct (backend (SetConsoleCtrlHandler TRUE) _ =? 0); cbn [negb snd trace];
      eexists; (split; [rewrite <- !app_assoc; reflexivity|]);
      cbn [app forallb]; rewrite ?P1, ?P2, ?P3, ?P4; reflexivity.
  - eexists; (split; [rewrite <- !app_assoc; reflexivity|]);
      cbn [app forallb]; rewrite ?P1, ?P2, ?P3, ?P4; reflexivity.
Qed.

(** What [run] appends to the trace, apart from the construction of the
    logger. *)
Lemma run_try_extends (p : Event -> bool) (args : list string) :
  p EvNewDaemon = true ->
  (forall a b, p (EvConnect a b) = true) ->
  (forall c, p (EvCall c) = true) ->
  (forall l m, p (EvLog l m) = true) ->
  (forall t, p (EvStdout t) = true) ->
  preserves (extends p) (try_catch (run_try args) run_catch).
Proof.
  intros P1 P2 P3 P4 P5.
  pose proof (runDaemon_extends p P1 P2 (fun a => P3 _) (P3 _)) as D.
  unfold WinConsole.run_try, calloutOperation. open_operations.
  follow_extends p.
Qed.

(** X2: when a subcommand is given, [run] constructs the logger first and
    only once: the daemon's log file when token 1 matches run, the setup
    log file for every other command, recognized or not. *)
Theorem logger_first_and_once (args : list string) (w : World) :
  count args > 1 ->
  exists rest,
    trace (snd (run args w)) =
    (trace w
       ++ EvLogger (if MATCH_ARG args 1 "run"
                    then DaemonLogFile env else ConfigLogFile env)
       :: rest)%list
    /\ forallb (fun e => negb (is_logger e)) rest = true.
Proof.
  intros C. unfold WinConsole.run.
  replace (count args >? 1) with true by (symmetry; apply Z.gtb_lt; lia).
  set (file := if MATCH_ARG args 1 "run" then _ else _).
  unfold bind at 1, emit.
  destruct (run_try_extends (fun e => negb (is_logger e)) args
              eq_refl (fun _ _ => eq_refl) (fun _ => eq_refl)
              (fun _ _ => eq_refl) (fun _ => eq_refl)
              (record (EvLogger file) w)) as (rest & E & F).
  exists rest. split; [|exact F].
  unfold try_catch in *. rewrite E, trace_record, <- app_assoc. reflexivity.
Qed.

Lemma notifications_extends (w w' : World) :
  extends (fun e => negb (is_notification e)) w w' ->
  notifications (trace w') = notifications (trace w).
Proof.
  intros (evs & -> & F). rewrite notifications_app.
  assert (N : notifications evs = 0%nat).
  { unfold notifications. induction evs as [|e evs IH]; [reflexivity|].
    simpl in F. apply andb_true_iff in F. destruct F as [F1 F2].
    simpl. destruct (is_notification e); [discriminate|]. auto. }
  rewrite N. lia.
Qed.

(** X3: the control client is run for the callout group only: when
    token 1 does not match callout, whatever the command and its outcome,
    [run] does not invoke it. *)
Theorem only_callout_notifies (args : list string) (w : World) :
  MATCH_ARG args 1 "callout" = false ->
  notifications (trace (snd (run args w))) = notifications (trace w).
Proof.
  intros M. apply notifications_extends. revert w.
  change (preserves (extends (fun e => negb (is_notification e))) (run args)).
  set (p := fun e => negb (is_notification e)).
  assert (D : preserves (extends p) (runDaemon backend)).
  { apply runDaemon_extends; reflexivity. }
  unfold WinConsole.run, WinConsole.run_try. rewrite M. cbn [andb].
  open_operations.
  follow_extends p.
Qed.

(** ** The daemon object *)

Lemma MATCH_ARG_count (args : list string) (i : nat) (text : string) :
  MATCH_ARG args i text = true -> count args > Z.of_nat i.
Proof.
  rewrite MATCH_ARG_selects. destruct (nth_error args i) eqn:E; [|discriminate].
  intros _. assert (i < List.length args)%nat
    by (apply nth_error_Some; congruence).
  unfold count. lia.
Qed.

(** With token 1 matching run, [run] is [runDaemon] inside the error
    boundary, with the daemon's log. *)
Lemma run_run (args : list string) (w : World) :
  MATCH_ARG args 1 "run" = true ->
  run args w =
  try_catch (runDaemon backend) run_catch
    (record (EvLogger (DaemonLogFile env)) w).
Proof.
  intros M. pose proof (MATCH_ARG_count _ _ _ M) as C.
  unfold WinConsole.run, WinConsole.run_try.
  replace (count args >? 1) with true by (symmetry; apply Z.gtb_lt; lia).
  rewrite M. rewrite !MATCH_ARG_selects in *.
  destruct (nth_error args 1) as [t1|]; [|discriminate].
  destruct (selects t1 "help") eqn:H1; [exclusive|].
  destruct (selects t1 "/?") eqn:H2; [exclusive|]. reflexivity.
Qed.

(** X4: the daemon object is constructed by the run command and by no
    other: when token 1 matches run, [_daemon] points to a daemon when
    [run] is left, however the start of the daemon ended; when it does
    not, [run] leaves [_daemon] as it found it. *)
Theorem only_run_constructs_daemon (args : list string) (w : World) :
  (MATCH_ARG args 1 "run" = true ->
     exists d, _daemon (snd (run args w)) = Some d)
  /\ (MATCH_ARG args 1 "run" = false ->
        _daemon (snd (run args w)) = _daemon w).
Proof.
  split; intros M.
  - rewrite (run_run args w M).
    unfold try_catch, runDaemon, daemon_start, new_WinDaemon, run_catch, qCritical.
    unfold callx, call, bind, ret, throw, emit, record.
    cbn [_daemon trace fst snd].
    destruct (backend WinDaemon_start _) as [[]|e]; cbn [snd _daemon].
    + destruct (negb _); cbn [snd _daemon]; eexists; reflexivity.
    + repeat match goal with
             | |- context [if ?b then _ else _] => destruct b
             end; cbn [snd _daemon]; eexists; reflexivity.
  - revert w. change (preserves same_daemon (run args)).
    unfold WinConsole.run, WinConsole.run_try, calloutOperation.
    rewrite M. open_operations. follow_daemon.
Qed.

(** ** [run] always comes back with an exit code *)












(** ** The service commands and the help *)

(** With token 1 given and the names tested before [name] not matched,
    what is left of the cascade is the test of [name]. *)
Ltac not_matched t n :=
  let H := fresh "H" in
  destruct (selects t n) eqn:H; [exclusive|].

(** X6: for the four service commands the exit code is what the service
    primitive returns or, when it raises, what the [catch] block makes of
    the error; exactly that one primitive is called, with the setup log,
    and the tokens after the command are not looked at. *)
Theorem service_command_exit_code (args : list string) (w : World) :
  let w1 := record (EvLogger (ConfigLogFile env)) w in
  let outcome (service : Call) (r : Reply Z) :=
    match r with
    | Returns v => (Returned v, record (EvCall service) w1)
    | Raises e => run_catch e (record (EvCall service) w1)
    end in
  (MATCH_ARG args 1 "install" = true ->
     run args w = outcome WinService_installService
                    (backend WinService_installService (trace w1)))
  /\ (MATCH_ARG args 1 "uninstall" = true ->
        run args w = outcome WinService_uninstallService
                       (backend WinService_uninstallService (trace w1)))
  /\ (MATCH_ARG args 1 "start" = true ->
        run args w = outcome WinService_startService
                       (backend WinService_startService (trace w1)))
  /\ (MATCH_ARG args 1 "stop" = true ->
        run args w = outcome WinService_stopService
                       (backend WinService_stopService (trace w1))).
Proof.
  intros w1 outcome.
  assert (G : forall name, MATCH_ARG args 1 name = true ->
              exists t1, nth_error args 1 = Some t1 /\ selects t1 name = true
                         /\ (count args >? 1) = true).
  { intros name M. pose proof (MATCH_ARG_count _ _ _ M) as C.
    rewrite MATCH_ARG_selects in M.
    destruct (nth_error args 1) as [t1|]; [|discriminate].
    exists t1. repeat split; [exact M | apply Z.gtb_lt; lia]. }
  repeat split; intros M; destruct (G _ M) as (t1 & N & S & C);
    unfold WinConsole.run, WinConsole.run_try; rewrite C;
    rewrite !MATCH_ARG_selects, N;
    not_matched t1 "help"; not_matched t1 "/?"; not_matched t1 "run";
    cbn [orb].
  - rewrite S. unfold try_catch, callx, call, bind, ret, throw, emit.
    fold w1. cbv beta. subst outcome. cbv beta.
    destruct (backend WinService_installService _); reflexivity.
  - not_matched t1 "install". rewrite S.
    unfold try_catch, callx, call, bind, ret, throw, emit.
    fold w1. cbv beta. subst outcome. cbv beta.
    destruct (backend WinService_uninstallService _); reflexivity.
  - not_matched t1 "install". not_matched t1 "uninstall". rewrite S.
    unfold try_catch, callx, call, bind, ret, throw, emit.
    fold w1. cbv beta. subst outcome. cbv beta.
    destruct (backend WinService_startService _); reflexivity.
  - not_matched t1 "install". not_matched t1 "uninstall".
    not_matched t1 "start". rewrite S.
    unfold try_catch, callx, call, bind, ret, throw, emit.
    fold w1. cbv beta. subst outcome. cbv beta.
    destruct (backend WinService_stopService _); reflexivity.
Qed.

(** X7: when token 1 matches help or /?, [run] sets up the setup log,
    prints the same usage text as without a subcommand and returns 0,
    whatever tokens follow; no collaborator is called. *)
Theorem help_command (args : list string) (w : World) :
  MATCH_ARG args 1 "help" = true \/ MATCH_ARG args 1 "/?" = true ->
  run args w =
  (Returned 0,
   record (EvStdout (helpText env)) (record (EvLogger (ConfigLogFile env)) w)).
Proof.
  intros M.
  assert (C : count args > 1)
    by (destruct M as [M|M]; apply (MATCH_ARG_count _ _ _ M)).
  unfold WinConsole.run, WinConsole.run_try.
  replace (count args >? 1) with true by (symmetry; apply Z.gtb_lt; lia).
  rewrite !MATCH_ARG_selects in *.
  destruct (nth_error args 1) as [t1|]; [|destruct M; discriminate].
  destruct M as [M|M]; rewrite M;
    (destruct (selects t1 "run") eqn:R; [exclusive|]);
    rewrite ?orb_true_r; reflexivity.
Qed.

(** X8: a recognized command does not look at the tokens that follow it:
    appending tokens to the arguments of a recognized command selects the
    same command and gives the same run. *)
Theorem trailing_tokens_ignored (args extra : list string) :
  count args > 1 ->
  selectCommand args <> Unrecognized ->
  selectCommand (args ++ extra) = selectCommand args
  /\ forall w, run (args ++ extra) w = run args w.
Proof.
  intros C U.
  assert (S : selectCommand (args ++ extra) = selectCommand args).
  { destruct args as [|p [|t1 rest]];
      try (rewrite ?count_cons in C; unfold count in C; simpl in C; lia).
    revert U. cbn [app]. unfold selectCommand.
    destruct (selects t1 "help" || selects t1 "/?"); [reflexivity|].
    destruct (selects t1 "run"); [reflexivity|].
    destruct (selects t1 "install"); [reflexivity|].
    destruct (selects t1 "uninstall"); [reflexivity|].
    destruct (selects t1 "start"); [reflexivity|].
    destruct (selects t1 "stop"); [reflexivity|].
    destruct (selects t1 "tap");
      [destruct rest; [intros U; contradiction | reflexivity]|].
    destruct (selects t1 "tun");
      [destruct rest; [intros U; contradiction | reflexivity]|].
    destruct (selects t1 "callout");
      [destruct rest; [intros U; contradiction | reflexivity]|].
    intros U; contradiction. }
  split; [exact S|]. intros w.
  rewrite !(run_by_command env backend), S. unfold Dispatch.run_as.
  assert (C' : count (args ++ extra) > 1).
  { unfold count in *. rewrite length_app. lia. }
  replace (count args >? 1) with true by (symmetry; apply Z.gtb_lt; lia).
  replace (count (args ++ extra) >? 1) with true
    by (symmetry; apply Z.gtb_lt; lia).
  rewrite (perform_recognized env backend _ args (args ++ extra) U).
  reflexivity.
Qed.

(** ** The console control handler around the daemon *)

(** X9: [runDaemon] registers the control handler after it has
    constructed the daemon and before it starts it.  When the start
    returns, [runDaemon] returns 0 and the handler is removed exactly when
    its registration had succeeded; when the start raises, the error
    leaves [runDaemon] and the handler is not removed. *)
Theorem runDaemon_handler_registration (w : World) :
  let before :=
    (trace w
       ++ [EvNewDaemon;
           EvConnect "Daemon::started" "QCoreApplication::exec";
           EvConnect "Daemon::stopped" "QCoreApplication::quit"])%list in
  let registered := backend (SetConsoleCtrlHandler TRUE) before in
  let running := (before ++ [EvCall (SetConsoleCtrlHandler TRUE)])%list in
  let done := (running ++ [EvCall WinDaemon_start])%list in
  (backend WinDaemon_start running = Returns tt ->
     fst (runDaemon backend w) = Returned 0
     /\ trace (snd (runDaemon backend w)) =
        (if registered =? 0 then done
         else done ++ [EvCall (SetConsoleCtrlHandler FALSE)])%list)
  /\ (forall e, backend WinDaemon_start running = Raises e ->
        fst (runDaemon backend w) = Thrown e
        /\ trace (snd (runDaemon backend w)) = done).
Proof.
  intros before registered running done.
  assert (E : runDaemon backend w =
              match backend WinDaemon_start running with
              | Returns _ =>
                  (Returned 0,
                   {| trace := if registered =? 0 then done
                               else (done ++ [EvCall (SetConsoleCtrlHandler FALSE)])%list;
                      _daemon := Some (Daemon_start Idle) |})
              | Raises e => (Thrown e, {| trace := done; _daemon := Some Idle |})
              end).
  { unfold runDaemon, daemon_start, new_WinDaemon.
    unfold callx, call, bind, ret, throw, emit, record.
    cbn [_daemon trace fst snd].
    replace (((trace w ++ [EvNewDaemon])
                ++ [EvConnect "Daemon::started" "QCoreApplication::exec"])
               ++ [EvConnect "Daemon::stopped" "QCoreApplication::quit"])%list
      with before by (unfold before; rewrite <- !app_assoc; reflexivity).
    fold registered. fold running.
    destruct (backend WinDaemon_start running) as [[]|e]; cbn [trace _daemon].
    - fold done. destruct (registered =? 0); reflexivity.
    - reflexivity. }
  rewrite E. split.
  - intros ->. cbn [fst snd trace]. split; reflexivity.
  - intros e ->. split; reflexivity.
Qed.

(** ** The wintun session *)

(** X10: [uninstallWintunDriver] and [createWintunAdapter] open the
    wintun session first and close it last, once each, on every path: when
    the operation succeeds, when it fails and when it raises. *)
Theorem wintun_session_released (operation : M Z) (w : World) :
  operation = uninstallWintunDriver env backend
  \/ operation = createWintunAdapter env backend ->
  exists inside,
    trace (snd (operation w)) =
    (trace w ++ [EvCall WintunModule_open] ++ inside
       ++ [EvCall WintunModule_close])%list
    /\ forallb (fun e => negb (is_session e)) inside = true.
Proof.
  intros [-> | ->];
    unfold uninstallWintunDriver, createWintunAdapter, WintunModule, scoped,
      qWarning, qInfo;
    unfold callx, call, bind, ret, throw, emit, record;
    cbn [_daemon trace fst snd].
  - destruct (backend Wintun_deleteDriver _) as [[|]|e];
      cbn [negb orb trace snd]; rewrite <- !app_assoc; cbn [app].
    + exists [EvCall Wintun_deleteDriver]. split; reflexivity.
    + exists [EvCall Wintun_deleteDriver;
              EvLog Warning
                [LStr "WintunDeleteDriver failed to delete WinTUN driver"]].
      split; reflexivity.
    + exists [EvCall Wintun_deleteDriver]. split; reflexivity.
  - destruct (backend (Wintun_recreateAdapter _) _) as [[a|]|e];
      cbn [trace snd]; rewrite <- !app_assoc; cbn [app];
      exists [EvCall (Wintun_recreateAdapter (pOpenVPNName env))];
      split; reflexivity.
Qed.

(** ** Reinstalling the callout driver from the command line *)

(** X11: [callout reinstall] when the uninstall asks for a reboot: the
    exit code is [DriverUninstalledReboot], the install primitive is not
    called, and the running daemon is still told to check the driver. *)
Theorem callout_reinstall_reboot (args : list string) (w : World) :
  let inf := getWfpCalloutInfPath env in
  let reboot := DriverStatus_int env DriverUninstalledReboot in
  let w1 := record (EvLogger (ConfigLogFile env)) w in
  MATCH_ARG args 1 "callout" = true ->
  MATCH_ARG args 2 "reinstall" = true ->
  backend (Tap_uninstallCalloutDriver inf false) (trace w1) = Returns reboot ->
  run args w =
  (Returned reboot,
   {| trace :=
        (trace w
           ++ [EvLogger (ConfigLogFile env);
               EvCall (Tap_uninstallCalloutDriver inf false);
               EvLog Info [LStr "Uninstall result:"; LInt reboot];
               EvLog Info
                 [LStr "Restart the computer to complete uninstallation, then install again."];
               EvCall (checkDriverHint env)])%list;
      _daemon := _daemon w |}).
Proof.
  intros inf reboot w1 M1 M2 U.
  rewrite (run_callout env backend args (reinstallCalloutDriver env backend) w M1)
    by (right; right; split; [exact M2 | reflexivity]).
  unfold notifying, try_catch, reinstallCalloutDriver, sendCheckDriverHint, qInfo.
  unfold callx, call, bind, ret, throw, emit.
  fold inf. fold w1. cbv beta. rewrite U. fold reboot.
  rewrite Z.eqb_refl. unfold record, w1, record, checkDriverHint.
  cbn [trace _daemon]. rewrite <- !app_assoc. reflexivity.
Qed.

End More.

(** ** The names of the commands *)

(** X12: a token that matches one of the names [run] tests it against
    matches no other of them, at either position, so that the order of the
    tests decides nothing. *)
Theorem command_names_exclusive (args : list string) (i : nat) (a b : string) :
  In a (primaryCommands ++ ["reinstall"; "create"])%list ->
  In b (primaryCommands ++ ["reinstall"; "create"])%list ->
  a <> b ->
  MATCH_ARG args i a = true ->
  MATCH_ARG args i b = false.
Proof.
  intros Ha Hb N. rewrite !MATCH_ARG_selects.
  destruct (nth_error args i) as [t|]; [|discriminate].
  intros Sa. destruct (selects t b) eqn:Sb; [|reflexivity].
  pose proof (selects_exclusive _ _ _ Sa Sb) as E.
  clear Sa Sb. exfalso. simpl in Ha, Hb.
  repeat (destruct Ha as [<-|Ha]; [|try contradiction]);
    repeat (destruct Hb as [<-|Hb]; [|try contradiction]);
    first [apply N; reflexivity | vm_compute in E; discriminate E].
Qed.

(** * The further properties at work on the example configuration *)


Lemma logger_first_and_once_witness :
  exists rest,
    trace (snd (run Sample.env Sample.succeeding
                  ["pia-service"; "tap"; "reinstall"] initial))
    = EvLogger "C:/pia/data/config.log" :: rest
    /\ forallb (fun e => negb (is_logger e)) rest = true.
Proof.
  destruct (logger_first_and_once Sample.env Sample.succeeding
              ["pia-service"; "tap"; "reinstall"] initial eq_refl)
    as (rest & E & F).
  exists rest. split; [exact E | exact F].
Defined.

Lemma only_callout_notifies_witness :
  notifications
    (trace (snd (run Sample.env Sample.succeeding
                   ["pia-service"; "tap"; "install"] initial))) = 0%nat.
Proof.
  apply (only_callout_notifies Sample.env Sample.succeeding
           ["pia-service"; "tap"; "install"] initial).
  reflexivity.
Defined.

Lemma only_run_constructs_daemon_witness :
  (exists d, _daemon (snd (run Sample.env Sample.succeeding
                             ["pia-service"; "Run"] initial)) = Some d)
  /\ _daemon (snd (run Sample.env Sample.succeeding
                     ["pia-service"; "start"] initial)) = None.
Proof.
  split.
  - apply (only_run_constructs_daemon Sample.env Sample.succeeding
             ["pia-service"; "Run"] initial).
    reflexivity.
  - apply (only_run_constructs_daemon Sample.env Sample.succeeding
             ["pia-service"; "start"] initial).
    reflexivity.
Defined.

Lemma service_command_exit_code_witness :
  fst (run Sample.env Sample.succeeding ["pia-service"; "install"; "now"] initial)
  = Returned 0
  /\ fst (run Sample.env (Sample.failing ERROR_SERVICE_DOES_NOT_EXIST)
            ["pia-service"; "UNINSTALL"] initial) = Returned 2
  /\ fst (run Sample.env (Sample.failing ERROR_SERVICE_MARKED_FOR_DELETE)
            ["pia-service"; "start"] initial) = Returned 3
  /\ fst (run Sample.env (Sample.failing 0)
            ["pia-service"; "stop"] initial) = Returned 1.
Proof.
  split; [|split; [|split]].
  - destruct (service_command_exit_code Sample.env Sample.succeeding
                ["pia-service"; "install"; "now"] initial) as (T & _).
    rewrite (T eq_refl). reflexivity.
  - destruct (service_command_exit_code Sample.env
                (Sample.failing ERROR_SERVICE_DOES_NOT_EXIST)
                ["pia-service"; "UNINSTALL"] initial) as (_ & T & _).
    rewrite (T eq_refl). reflexivity.
  - destruct (service_command_exit_code Sample.env
                (Sample.failing ERROR_SERVICE_MARKED_FOR_DELETE)
                ["pia-service"; "start"] initial) as (_ & _ & T & _).
    rewrite (T eq_refl). reflexivity.
  - destruct (service_command_exit_code Sample.env (Sample.failing 0)
                ["pia-service"; "stop"] initial) as (_ & _ & _ & T).
    rewrite (T eq_refl). reflexivity.
Defined.

Lemma help_command_witness :
  run Sample.env Sample.succeeding ["pia-service"; "HELP"; "tap"] initial
  = (Returned 0,
     record (EvStdout (helpText Sample.env))
       (record (EvLogger (ConfigLogFile Sample.env)) initial))
  /\ fst (run Sample.env Sample.succeeding ["pia-service"; "/?"] initial)
     = Returned 0.
Proof.
  split.
  - apply (help_command Sample.env Sample.succeeding
             ["pia-service"; "HELP"; "tap"] initial).
    left. reflexivity.
  - rewrite (help_command Sample.env Sample.succeeding
               ["pia-service"; "/?"] initial (or_intror eq_refl)).
    reflexivity.
Defined.

Lemma trailing_tokens_ignored_witness :
  run Sample.env Sample.succeeding
    (["pia-service"; "tun"; "create"] ++ ["again"; "please"]) initial
  = run Sample.env Sample.succeeding ["pia-service"; "tun"; "create"] initial.
Proof.
  destruct (trailing_tokens_ignored Sample.env Sample.succeeding
              ["pia-service"; "tun"; "create"] ["again"; "please"] eq_refl)
    as [_ R].
  - vm_compute. discriminate.
  - apply R.
Defined.

Lemma runDaemon_handler_registration_witness :
  runDaemon Sample.succeeding initial
  = (Returned 0,
     {| trace :=
          [EvNewDaemon;
           EvConnect "Daemon::started" "QCoreApplication::exec";
           EvConnect "Daemon::stopped" "QCoreApplication::quit";
           EvCall (SetConsoleCtrlHandler TRUE);
           EvCall WinDaemon_start;
           EvCall (SetConsoleCtrlHandler FALSE)];
        _daemon := Some Stopped |})
  /\ fst (runDaemon (Sample.failing 0) initial) = Returned 0
  /\ trace (snd (runDaemon (Sample.failing 0) initial))
     = [EvNewDaemon;
        EvConnect "Daemon::started" "QCoreApplication::exec";
        EvConnect "Daemon::stopped" "QCoreApplication::quit";
        EvCall (SetConsoleCtrlHandler TRUE);
        EvCall WinDaemon_start].
Proof.
  split; [reflexivity|].
  destruct (runDaemon_handler_registration (Sample.failing 0) initial)
    as [T _].
  destruct (T eq_refl) as [R E]. split; [exact R | exact E].
Defined.

Lemma wintun_session_released_witness :
  exists inside,
    trace (snd (createWintunAdapter Sample.env (Sample.failing 0) initial))
    = ([EvCall WintunModule_open] ++ inside ++ [EvCall WintunModule_close])%list
    /\ forallb (fun e => negb (is_session e)) inside = true.
Proof.
  apply (wintun_session_released Sample.env (Sample.failing 0)
           (createWintunAdapter Sample.env (Sample.failing 0)) initial).
  right. reflexivity.
Defined.

Lemma callout_reinstall_reboot_witness :
  fst (run Sample.env (Sample.failing 0)
         ["pia-service"; "callout"; "reinstall"] initial)
  = Returned (Sample.status_int DriverUninstalledReboot)
  /\ notifications
       (trace (snd (run Sample.env (Sample.failing 0)
                      ["pia-service"; "callout"; "reinstall"] initial)))
     = 1%nat.
Proof.
  rewrite (callout_reinstall_reboot Sample.env (Sample.failing 0)
             ["pia-service"; "callout"; "reinstall"] initial
             eq_refl eq_refl eq_refl).
  split; reflexivity.
Defined.

Lemma command_names_exclusive_witness :
  MATCH_ARG ["pia-service"; "Stop"] 1 "start" = false.
Proof.
  apply (command_names_exclusive ["pia-service"; "Stop"] 1 "stop" "start").
  - simpl; auto 20.
  - simpl; auto 20.
  - discriminate.
  - reflexivity.
Defined.
